(** * nautilus-open-any-terminal: the terminal registry, the configuration
      resolver and the command builder

    A shallow embedding of [nautilus_open_any_terminal.py].  A Python
    string is held as the bytes of its UTF-8 encoding ([string]); the module
    globals, the list objects they reference, the memo of [distro_id],
    standard output and the processes that [Popen] started are fields of an
    explicit [State] threaded through a state-and-exception monad.  The
    operating system enters where the module asks it something: the
    distribution files that [open] finds, and the directories a new process
    can be started in.  Functions of Python's standard library that the
    module calls but does not define ([urlparse], [unquote],
    [ast.literal_eval]) are [Section] variables; a concrete model of each is
    given for running scenarios. *)

From Stdlib Require Import ZArith Ascii String.
From stdpp Require Import base option list strings gmap pretty.

Open Scope string_scope.
Open Scope list_scope.

(** ** Python values and exceptions *)

(** An element of a Python list of [Optional[str]]: [None] or a string. *)
Abbreviation arg := (option string).

(** What an [os-release] value can be after [ast.literal_eval]: a string, or
    some other literal (kept as its source text). *)
Inductive pyval :=
| VStr (s : string)
| VOther (src : string).

Inductive exn :=
| AttributeError
| IndexError
| KeyError (key : string)
| TypeError
| ValueError
| UnicodeDecodeError
| SyntaxError
| FileNotFoundError (file_path : string)
| PermissionError (file_path : string)
| NotADirectoryError (file_path : string)
| OSError (file_path : string) (line_number : nat) (line : string).

(** [except OSError] catches the class and its subclasses;
    [UnicodeDecodeError] is a [ValueError], not one of them. *)
Definition is_OSError (e : exn) : bool :=
  match e with
  | FileNotFoundError _ | PermissionError _ | NotADirectoryError _
  | OSError _ _ _ => true
  | _ => false
  end.

Definition is_FileNotFoundError (e : exn) : bool :=
  match e with
  | FileNotFoundError _ => true
  | _ => false
  end.

#[global] Instance pyval_eq_dec : EqDecision pyval.
Proof. solve_decision. Defined.

#[global] Instance exn_eq_dec : EqDecision exn.
Proof. solve_decision. Defined.

(** The double quote character, and the single quote. *)
Definition dquote : string := String "034"%char EmptyString.
Definition squote : string := String "039"%char EmptyString.

(** [l[i]] on a Python list: negative indices count from the end, anything
    else out of range is an [IndexError] ([None] here). *)
Definition py_getitem {A} (l : list A) (i : Z) : option A :=
  let n := Z.of_nat (length l) in
  if bool_decide (0 ≤ i < n)%Z then l !! Z.to_nat i
  else if bool_decide (- n ≤ i < 0)%Z then l !! Z.to_nat (i + n)
  else None.

(** Truth value of an [Optional[list]]: [None] and [[]] are false. *)
Definition truthy {A} (o : option (list A)) : bool :=
  match o with
  | Some (_ :: _) => true
  | _ => false
  end.

(** Truth value of an [Optional[str]]. *)
Definition truthy_str (o : option string) : bool :=
  match o with
  | Some (String _ _) => true
  | _ => false
  end.

(** Truth value of an [Optional[int]]. *)
Definition truthy_int (o : option Z) : bool :=
  match o with
  | Some p => negb (p =? 0)%Z
  | None => false
  end.

(** The list a truthy [Optional[list]] holds. *)
Definition the_list {A} (o : option (list A)) : list A := default [] o.

(** ** The terminal registry *)

Record Terminal := mkTerminal {
  name : string;
  workdir_arguments : option (list string);
  new_tab_arguments : option (list string);
  new_window_arguments : option (list string);
  command_arguments : list string;
  flatpak_package : option string;
}.

#[global] Instance Terminal_eq_dec : EqDecision Terminal.
Proof. solve_decision. Defined.

(** [Terminal(name)] with every keyword argument at its default. *)
Definition Terminal_ (name : string) : Terminal :=
  mkTerminal name None None None ["-e"] None.

Definition with_workdir (w : list string) (t : Terminal) : Terminal :=
  mkTerminal (name t) (Some w) (new_tab_arguments t) (new_window_arguments t)
             (command_arguments t) (flatpak_package t).
Definition with_new_tab (a : list string) (t : Terminal) : Terminal :=
  mkTerminal (name t) (workdir_arguments t) (Some a) (new_window_arguments t)
             (command_arguments t) (flatpak_package t).
Definition with_new_window (a : list string) (t : Terminal) : Terminal :=
  mkTerminal (name t) (workdir_arguments t) (new_tab_arguments t) (Some a)
             (command_arguments t) (flatpak_package t).
Definition with_command (a : list string) (t : Terminal) : Terminal :=
  mkTerminal (name t) (workdir_arguments t) (new_tab_arguments t)
             (new_window_arguments t) a (flatpak_package t).
Definition with_flatpak (p : string) (t : Terminal) : Terminal :=
  mkTerminal (name t) (workdir_arguments t) (new_tab_arguments t)
             (new_window_arguments t) (command_arguments t) (Some p).

(** The entries of the [TERMINALS] dict literal, in source order. *)
Definition TERMINALS_items : list (string * Terminal) :=
  [ ("alacritty", Terminal_ "Alacritty");
    ("blackbox",
       with_flatpak "com.raggesilver.BlackBox"
         (with_command ["-c"]
            (with_workdir ["--working-directory"] (Terminal_ "Black Box"))));
    ("cool-retro-term", with_workdir ["--workdir"] (Terminal_ "cool-retro-term"));
    ("deepin-terminal", Terminal_ "Deepin Terminal");
    ("foot", Terminal_ "Foot");
    ("footclient", Terminal_ "FootClient");
    ("gnome-terminal", with_new_tab ["--tab"] (Terminal_ "Terminal"));
    ("guake", with_workdir ["--show"; "--new-tab"] (Terminal_ "Guake"));
    ("hyper", Terminal_ "Hyper");
    ("kermit", Terminal_ "Kermit");
    ("kgx", with_new_tab ["--tab"] (Terminal_ "Console"));
    ("kitty", Terminal_ "kitty");
    ("konsole", with_new_tab ["--new-tab"] (Terminal_ "Konsole"));
    ("mate-terminal", with_new_tab ["--tab"] (Terminal_ "Mate Terminal"));
    ("mlterm", Terminal_ "Mlterm");
    ("prompt",
       with_flatpak "org.gnome.Prompt"
         (with_new_window ["--new-window"]
            (with_new_tab ["--tab"] (with_command ["-x"] (Terminal_ "Prompt")))));
    ("qterminal", Terminal_ "QTerminal");
    ("rio", Terminal_ "Rio");
    ("sakura", Terminal_ "Sakura");
    ("st", Terminal_ "Simple Terminal");
    ("tabby", with_workdir ["open"] (with_command ["run"] (Terminal_ "Tabby")));
    ("terminator", with_new_tab ["--new-tab"] (Terminal_ "Terminator"));
    ("terminology", Terminal_ "Terminology");
    ("terminus", Terminal_ "Terminus");
    ("termite", Terminal_ "Termite");
    ("tilix", with_flatpak "com.gexperts.Tilix" (Terminal_ "Tilix"));
    ("urxvt", Terminal_ "rxvt-unicode");
    ("urxvtc", Terminal_ "urxvtc");
    ("uxterm", Terminal_ "UXTerm");
    ("warp", Terminal_ "warp");
    ("wezterm",
       with_flatpak "org.wezfurlong.wezterm"
         (with_workdir ["start"; "--cwd"] (Terminal_ "Wez's Terminal Emulator")));
    ("xfce4-terminal", with_new_tab ["--tab"] (Terminal_ "Xfce Terminal"));
    ("xterm", Terminal_ "XTerm") ].

(** A dict built from pairs: a later pair replaces an earlier one with the
    same key. *)
Definition py_dict {V} (items : list (string * V)) : gmap string V :=
  foldl (λ m kv, <[kv.1 := kv.2]> m) ∅ items.

Definition TERMINALS : gmap string Terminal := py_dict TERMINALS_items.

Definition FLATPAK_PARMS : list string := ["off"; "system"; "user"].

Definition GSETTINGS_TERMINAL : string := "terminal".
Definition GSETTINGS_NEW_TAB : string := "new-tab".
Definition GSETTINGS_FLATPAK : string := "flatpak".
Definition REMOTE_URI_SCHEME : list string := ["ftp"; "sftp"].

(** ** The environment: settings store and distribution files *)

(** The settings store [_gsettings], read by key. *)
Record Settings := mkSettings {
  get_string : string → string;
  get_boolean : string → bool;
  get_enum : string → Z;
}.

(** What [open(file_path, encoding=utf-8)] finds: no such file
    ([FileNotFoundError]), a file that cannot be opened ([PermissionError],
    an [OSError] that is not a [FileNotFoundError]), a text file, given as
    the lines that iterating over it produces, or a file whose bytes are
    not UTF-8 throughout: iterating over it produces some lines and then
    raises [UnicodeDecodeError] (the decoder works on a buffer at a time, so
    the lines that come first are those of the buffers before the offending
    one, possibly none).  The lines are decoded text, held as UTF-8. *)
Inductive file :=
| Absent
| Denied
| Text (lines : list string)
| Undecodable (lines : list string).

Abbreviation filesystem := (string → file).

(** What the operating system finds under the path a new process is to
    start in: nothing, something that is not a directory, a directory that
    may not be entered, or a directory. *)
Inductive directory :=
| NoSuchDirectory
| NotADirectory
| NoEntry
| Directory.

Abbreviation directories := (string → directory).

(** [chdir(path)] in the new process: the [OSError] it fails with, if any.
    The empty path names nothing ([ENOENT]), whatever the file system
    holds. *)
Definition chdir (dirs : directories) (path : string) : option exn :=
  if bool_decide (path = "") then Some (FileNotFoundError path)
  else match dirs path with
       | Directory => None
       | NoSuchDirectory => Some (FileNotFoundError path)
       | NotADirectory => Some (NotADirectoryError path)
       | NoEntry => Some (PermissionError path)
       end.

(** ** The program state *)

Abbreviation loc := nat.

(** The five module globals the resolver writes.  [terminal_cmd] is a
    reference to a list object, or [None] before the first resolution. *)
Record Globals := mkGlobals {
  terminal : string;
  terminal_cmd : option loc;
  terminal_data : Terminal;
  new_tab : bool;
  flatpak : string;
}.

(** A spawned process: [Popen(argv, cwd=cwd)]. *)
Record Process := mkProcess {
  argv : list string;
  cwd : option string;
}.

Record State := mkState {
  globals : Globals;
  heap : list (list arg);            (* the list objects, by location *)
  distro_id_cache : option pyval;    (* the memo of [@cache distro_id] *)
  stdout : list string;              (* lines printed, oldest first *)
  spawned : list Process;            (* processes started, oldest first *)
}.

#[global] Instance Globals_eq_dec : EqDecision Globals.
Proof. solve_decision. Defined.

#[global] Instance Process_eq_dec : EqDecision Process.
Proof. solve_decision. Defined.

Definition set_globals (g : Globals) (σ : State) : State :=
  mkState g (heap σ) (distro_id_cache σ) (stdout σ) (spawned σ).
Definition set_heap (h : list (list arg)) (σ : State) : State :=
  mkState (globals σ) h (distro_id_cache σ) (stdout σ) (spawned σ).
Definition set_distro_id_cache (c : option pyval) (σ : State) : State :=
  mkState (globals σ) (heap σ) c (stdout σ) (spawned σ).
Definition set_stdout (o : list string) (σ : State) : State :=
  mkState (globals σ) (heap σ) (distro_id_cache σ) o (spawned σ).
Definition set_spawned (p : list Process) (σ : State) : State :=
  mkState (globals σ) (heap σ) (distro_id_cache σ) (stdout σ) p.

Definition set_terminal (v : string) (g : Globals) : Globals :=
  mkGlobals v (terminal_cmd g) (terminal_data g) (new_tab g) (flatpak g).
Definition set_terminal_cmd (v : option loc) (g : Globals) : Globals :=
  mkGlobals (terminal g) v (terminal_data g) (new_tab g) (flatpak g).
Definition set_terminal_data (v : Terminal) (g : Globals) : Globals :=
  mkGlobals (terminal g) (terminal_cmd g) v (new_tab g) (flatpak g).
Definition set_new_tab (v : bool) (g : Globals) : Globals :=
  mkGlobals (terminal g) (terminal_cmd g) (terminal_data g) v (flatpak g).
Definition set_flatpak (v : string) (g : Globals) : Globals :=
  mkGlobals (terminal g) (terminal_cmd g) (terminal_data g) (new_tab g) v.

(** ** The monad: state that survives a raised exception *)

(** A call returns, raises, or gets stuck on a location that was never
    allocated (which no state reachable from [initial_state] does). *)
Inductive result (A : Type) :=
| Ret (a : A)
| Raise (e : exn)
| Stuck.
Arguments Ret {A} a.
Arguments Raise {A} e.
Arguments Stuck {A}.

Definition M (A : Type) : Type := State → State * result A.

#[global] Instance M_ret : MRet M := λ A a σ, (σ, Ret a).
#[global] Instance M_bind : MBind M := λ A B f m σ,
  match m σ with
  | (σ', Ret a) => f a σ'
  | (σ', Raise e) => (σ', Raise e)
  | (σ', Stuck) => (σ', Stuck)
  end.

Definition raise {A} (e : exn) : M A := λ σ, (σ, Raise e).
Definition get_globals : M Globals := λ σ, (σ, Ret (globals σ)).
Definition modify_globals (f : Globals → Globals) : M unit :=
  λ σ, (set_globals (f (globals σ)) σ, Ret ()).

(** [print(line)] *)
Definition print (line : string) : M unit :=
  λ σ, (set_stdout (stdout σ ++ [line]) σ, Ret ()).

(** A list display [[x, ...]]: a new list object. *)
Definition list_new (xs : list arg) : M loc :=
  λ σ, (set_heap (heap σ ++ [xs]) σ, Ret (length (heap σ))).

(** The contents of the list object at [l]. *)
Definition list_read (l : loc) : M (list arg) :=
  λ σ, match heap σ !! l with
       | Some xs => (σ, Ret xs)
       | None => (σ, Stuck)
       end.

Definition list_write (l : loc) (xs : list arg) : M unit :=
  λ σ, (set_heap (<[l := xs]> (heap σ)) σ, Ret ()).

(** [l.copy()] *)
Definition list_copy (l : loc) : M loc :=
  xs ← list_read l; list_new xs.

(** [l.extend(ys)] *)
Definition list_extend (l : loc) (ys : list arg) : M unit :=
  xs ← list_read l; list_write l (xs ++ ys).

(** [l.append(y)] *)
Definition list_append (l : loc) (y : arg) : M unit :=
  list_extend l [y].

(** [l[i] = y] for [i >= 0] *)
Definition list_setitem (l : loc) (i : nat) (y : arg) : M unit :=
  xs ← list_read l;
  if decide (i < length xs) then list_write l (<[i := y]> xs)
  else raise IndexError.

Definition spawn (p : Process) : M unit :=
  λ σ, (set_spawned (spawned σ ++ [p]) σ, Ret ()).

(** [Popen(cmd, cwd=cwd)].  Every element of [cmd] has to be a string,
    otherwise [Popen] raises [TypeError]; the program is [cmd[0]], an
    [IndexError] on the empty list; and the new process enters [cwd], when
    one is given, before it runs the program: if it cannot, [Popen] raises
    the [OSError] of [chdir].  In each of these cases nothing is started.
    The program itself is taken to be installed: the terminal is what the
    user configured, and the module has no answer to its absence. *)
Definition execute_child (dirs : directories) (xs : list arg)
    (cwd : option string) : exn + Process :=
  match mapM id xs with
  | None => inl TypeError
  | Some [] => inl IndexError
  | Some argv =>
      match cwd ≫= chdir dirs with
      | Some e => inl e
      | None => inr (mkProcess argv cwd)
      end
  end.

Definition Popen (dirs : directories) (cmd : loc) (cwd : option string) : M unit :=
  xs ← list_read cmd;
  match execute_child dirs xs cwd with
  | inl e => raise e
  | inr p => spawn p
  end.

(** [FLATPAK_PARMS[0]] *)
Definition FLATPAK_PARMS_0 : string := default "" (py_getitem FLATPAK_PARMS 0).

(** The module's assignments to its globals; [TERMINALS] has the key
    [gnome-terminal]. *)
Definition initial_globals : Globals :=
  mkGlobals "gnome-terminal" None
            (default (Terminal_ "") (TERMINALS !! "gnome-terminal"))
            false
            FLATPAK_PARMS_0.

(** The state once the module's top-level assignments have run, before its
    last lines call [set_terminal_args]. *)
Definition initial_state : State := mkState initial_globals [] None [] [].

(** ** Characters and strings *)

Definition in_range (lo hi : nat) (c : ascii) : bool :=
  (lo <=? nat_of_ascii c)%nat && (nat_of_ascii c <=? hi)%nat.

Definition is_upper : ascii → bool := in_range 65 90.
Definition is_lower : ascii → bool := in_range 97 122.
Definition is_digit : ascii → bool := in_range 48 57.

(** The white space of [str.rstrip()] and [str.isspace()].  In one byte:
    the characters 9 to 13 and 28 to 32. *)
Definition is_space (c : ascii) : bool := in_range 9 13 c || in_range 28 32 c.

(** In two bytes: U+0085 and U+00A0. *)
Definition is_space2 (c d : ascii) : bool :=
  Ascii.eqb c "194" && (Ascii.eqb d "133" || Ascii.eqb d "160").

(** In three bytes: U+1680, U+2000 to U+200A, U+2028, U+2029, U+202F,
    U+205F and U+3000. *)
Definition is_space3 (c d e : ascii) : bool :=
  (Ascii.eqb c "225" && Ascii.eqb d "154" && Ascii.eqb e "128")
  || (Ascii.eqb c "226" && Ascii.eqb d "128"
      && (in_range 128 138 e || Ascii.eqb e "168" || Ascii.eqb e "169"
          || Ascii.eqb e "175"))
  || (Ascii.eqb c "226" && Ascii.eqb d "129" && Ascii.eqb e "159")
  || (Ascii.eqb c "227" && Ascii.eqb d "128" && Ascii.eqb e "128").

(** A byte that continues a character begun before it. *)
Definition is_continuation : ascii → bool := in_range 128 191.

Definition char_in (c : ascii) (chars : string) : bool :=
  existsb (Ascii.eqb c) (list_ascii_of_string chars).

Fixpoint forall_chars (p : ascii → bool) (s : string) : bool :=
  match s with
  | EmptyString => true
  | String c r => p c && forall_chars p r
  end.

(** [s.isspace()], or [s] is empty: [s] is white space from end to end. *)
Fixpoint blank (s : string) : bool :=
  match s with
  | EmptyString => true
  | String c r =>
      if is_space c then blank r
      else
        match r with
        | String d r' =>
            if is_space2 c d then blank r'
            else
              match r' with
              | String e r'' => is_space3 c d e && blank r''
              | EmptyString => false
              end
        | EmptyString => false
        end
  end.

(** [line.rstrip()]: the line without the white space it ends with, that
    is, cut where the rest is white space from there to the end. *)
Fixpoint rstrip (s : string) : string :=
  match s with
  | EmptyString => EmptyString
  | String c r => if blank s then EmptyString else String c (rstrip r)
  end.

(** The longest prefix of [s] whose characters satisfy [p], and the rest. *)
Fixpoint span (p : ascii → bool) (s : string) : string * string :=
  match s with
  | EmptyString => (EmptyString, EmptyString)
  | String c r =>
      if p c then let '(a, b) := span p r in (String c a, b)
      else (EmptyString, s)
  end.

(** What [.*] matches: everything up to the first line feed. *)
Definition dot_star (s : string) : string :=
  (span (λ c, negb (Ascii.eqb c "010")) s).1.

(** [s.startswith(c)] for a one-character [c] *)
Definition startswith (c : ascii) (s : string) : bool :=
  match s with
  | String d _ => Ascii.eqb c d
  | EmptyString => false
  end.

(** ** Reading the distribution-identification files *)

(** [[A-Z_0-9]] *)
Definition is_name_char (c : ascii) : bool :=
  is_upper c || Ascii.eqb c "_" || is_digit c.

(** [re.match] of the pattern [([A-Z][A-Z_0-9]+)=(.STAR)], where [.STAR]
    stands for a dot followed by a star: the two groups, or [None].
    The greedy run of name characters cannot hold the [=] sign, so the match
    exists exactly when the longest run is not empty and [=] follows it. *)
Definition match_assignment (line : string) : option (string * string) :=
  match line with
  | String c rest =>
      if is_upper c then
        match span is_name_char rest with
        | (String d run, String e val) =>
            if Ascii.eqb e "=" then Some (String c (String d run), dot_star val)
            else None
        | _ => None
        end
      else None
  | EmptyString => None
  end.

Definition possible_os_release_paths : list string :=
  ["/etc/os-release"; "/usr/lib/os-release"].

Section os_release.

(** [ast.literal_eval]: the value of a literal, or the exception raised. *)
Variable literal_eval : string → exn + pyval.

(** The loop over the lines of one open file: the pairs it yields, and the
    exception that ended it, if any. *)
Fixpoint read_lines (file_path : string) (line_number : nat)
    (lines : list string) : list (string * pyval) * option exn :=
  match lines with
  | [] => ([], None)
  | line :: rest =>
      let line := rstrip line in
      if bool_decide (line = "") || startswith "#" line then
        read_lines file_path (S line_number) rest
      else
        match match_assignment line with
        | Some (name, val) =>
            let val' :=
              if startswith "034" val || startswith "039" val
              then literal_eval val else inr (VStr val) in
            match val' with
            | inr v =>
                let '(items, e) := read_lines file_path (S line_number) rest in
                ((name, v) :: items, e)
            | inl e => ([], Some e)
            end
        | None => ([], Some (OSError file_path line_number line))
        end
  end.

(** The generator [read_os_release], run to its end over the given paths:
    everything it yields, and the exception that leaves it, if any.  Only
    [FileNotFoundError] is caught, and the loop then goes on to the next
    path; a file that was read to its end is followed by the next path
    as well. *)
Fixpoint read_paths (fs : filesystem) (paths : list string)
    : list (string * pyval) * option exn :=
  match paths with
  | [] => ([], None)
  | file_path :: rest =>
      let '(items, e) :=
        match fs file_path with
        | Absent => ([], Some (FileNotFoundError file_path))
        | Denied => ([], Some (PermissionError file_path))
        | Text lines => read_lines file_path 1 lines
        | Undecodable lines =>
            let '(items, e) := read_lines file_path 1 lines in
            (items, Some (default UnicodeDecodeError e))
        end in
      match e with
      | Some e =>
          if is_FileNotFoundError e
          then let '(items', e') := read_paths fs rest in (items ++ items', e')
          else (items, Some e)
      | None => let '(items', e') := read_paths fs rest in (items ++ items', e')
      end
  end.

Definition read_os_release (fs : filesystem) : list (string * pyval) * option exn :=
  read_paths fs possible_os_release_paths.

(** The body of [distro_id], without the memo. *)
Definition distro_id_body (fs : filesystem) : result pyval :=
  let '(items, e) := read_os_release fs in
  match e with
  | Some e => if is_OSError e then Ret (VStr "unknown") else Raise e
  | None =>
      match py_dict items !! "ID" with
      | Some v => Ret v
      | None => Raise (KeyError "ID")
      end
  end.

(** The decorator [@cache], on a function without arguments: a value that
    was returned is remembered and returned again without running the
    body; an exception is not remembered.  [memo] is the memo before the
    call; the result is the memo after it and what the call does. *)
Definition cached (memo : option pyval) (body : result pyval)
    : option pyval * result pyval :=
  match memo with
  | Some v => (memo, Ret v)
  | None =>
      match body with
      | Ret v => (Some v, Ret v)
      | r => (None, r)
      end
  end.

(** [@cache def distro_id()] *)
Definition distro_id (fs : filesystem) : M pyval :=
  λ σ, let '(memo, r) := cached (distro_id_cache σ) (distro_id_body fs) in
       (set_distro_id_cache memo σ, r).

End os_release.

(** ** [shlex.quote] *)

(** [[\w@%+=:,./-]] under [re.ASCII] *)
Definition is_safe (c : ascii) : bool :=
  is_upper c || is_lower c || is_digit c || char_in c "_@%+=:,./-".

(** [s.replace(q, q + d + q + d + q)] for the single quote [q] and the
    double quote [d] *)
Fixpoint replace_squote (s : string) : string :=
  match s with
  | EmptyString => EmptyString
  | String c r =>
      if Ascii.eqb c "039"
      then squote +:+ dquote +:+ squote +:+ dquote +:+ squote +:+ replace_squote r
      else String c (replace_squote r)
  end.

Definition shlex_quote (s : string) : string :=
  if bool_decide (s = "") then squote +:+ squote
  else if forall_chars is_safe s then s
  else squote +:+ replace_squote s +:+ squote.

(** ** The command builder *)

(** The attributes of [urlparse(uri)] the builder reads.  [port] is a
    property that raises [ValueError] on a port that is not a number in
    0..65535. *)
Record ParseResult := mkParseResult {
  scheme : string;
  username : option string;
  hostname : option string;
  port : exn + option Z;
  path : string;
}.

(** An [Optional[str]] inside an f-string. *)
Definition format_arg (o : option string) : string := default "None" o.

(** A function of the library that returns or raises. *)
Definition lift {A} (r : exn + A) : M A :=
  match r with
  | inl e => raise e
  | inr a => mret a
  end.

(** [terminal_cmd.copy()]: [None] has no [copy]. *)
Definition copy_of (o : option loc) : M loc :=
  match o with
  | Some l => list_copy l
  | None => raise AttributeError
  end.

Section launcher.

(** The directories of the system, [urllib.parse.urlparse] and
    [urllib.parse.unquote]. *)
Variable dirs : directories.
Variable urlparse : string → exn + ParseResult.
Variable unquote : string → string.

Definition open_terminal_in_uri (uri : string) : M unit :=
  result ← lift (urlparse uri);
  g ← get_globals;
  cmd ← copy_of (terminal_cmd g);
  if bool_decide (scheme result ∈ REMOTE_URI_SCHEME) then
    list_extend cmd (Some <$> command_arguments (terminal_data g));;
    list_extend cmd [Some "ssh"; Some "-t"];;
    (if truthy_str (username result)
     then list_append cmd
            (Some (format_arg (username result) +:+ "@" +:+
                   format_arg (hostname result)))
     else list_append cmd (hostname result));;
    p ← lift (port result);
    (if truthy_int p
     then list_append cmd (Some "-p");;
          list_append cmd (Some (pretty (default 0%Z p)))
     else mret ());;
    list_extend cmd
      (Some <$> ["cd"; shlex_quote (unquote (path result)); ";"; "exec";
                 "$SHELL"]);;
    Popen dirs cmd None
  else
    let filename := unquote (path result) in
    (if new_tab g && truthy (new_tab_arguments (terminal_data g))
     then list_extend cmd (Some <$> the_list (new_tab_arguments (terminal_data g)))
     else if truthy (new_window_arguments (terminal_data g))
     then list_extend cmd (Some <$> the_list (new_window_arguments (terminal_data g)))
     else mret ());;
    (if negb (bool_decide (filename = ""))
        && truthy (workdir_arguments (terminal_data g))
     then list_extend cmd (Some <$> the_list (workdir_arguments (terminal_data g)));;
          list_append cmd (Some filename)
     else mret ());;
    Popen dirs cmd (Some filename).

End launcher.

(** ** The configuration resolver *)

Definition unknown_terminal_line (value : string) : string :=
  "open-any-terminal: unknown terminal " +:+ dquote +:+ value +:+ dquote.

Definition status_line (terminal new_tab_text flatpak_text : string) : string :=
  "open-any-terminal: terminal is set to " +:+ dquote +:+ terminal +:+ dquote
  +:+ " " +:+ new_tab_text +:+ " " +:+ flatpak_text.

Section resolver.

Variable literal_eval : string → exn + pyval.

Definition set_terminal_args (_gsettings : Settings) (fs : filesystem) : M unit :=
  let value := get_string _gsettings GSETTINGS_TERMINAL in
  let newer_tab := get_boolean _gsettings GSETTINGS_NEW_TAB in
  mode ← lift (from_option inr (inl IndexError)
                 (py_getitem FLATPAK_PARMS (get_enum _gsettings GSETTINGS_FLATPAK)));
  modify_globals (set_flatpak mode);;
  match TERMINALS !! value with
  | None => print (unknown_terminal_line value)
  | Some new_terminal_data =>
      modify_globals (set_terminal value);;
      modify_globals (set_terminal_data new_terminal_data);;
      new_tab_text ←
        (if newer_tab && truthy (new_tab_arguments new_terminal_data)
         then modify_globals (set_new_tab newer_tab);;
              mret "opening in a new tab"
         else mret "opening a new window");
      let new_tab_text :=
        if newer_tab && negb (truthy (new_tab_arguments new_terminal_data))
        then new_tab_text +:+ " (terminal does not support tabs)"
        else new_tab_text in
      flatpak_text ←
        (if negb (bool_decide (mode = FLATPAK_PARMS_0))
            && bool_decide (flatpak_package new_terminal_data ≠ None)
         then
           l ← list_new [Some "flatpak"; Some "run"; Some ("--" +:+ mode);
                          flatpak_package new_terminal_data];
           modify_globals (set_terminal_cmd (Some l));;
           mret ("with flatpak as " +:+ mode)
         else
           l ← list_new [Some value];
           modify_globals (set_terminal_cmd (Some l));;
           (if bool_decide (value = "blackbox") then
              d ← distro_id literal_eval fs;
              if bool_decide (d = VStr "fedora")
              then (* It's called like this on fedora *)
                   list_setitem l 0 (Some "blackbox-terminal")
              else mret ()
            else mret ());;
           modify_globals (set_flatpak FLATPAK_PARMS_0);;
           mret "");
      print (status_line value new_tab_text flatpak_text)
  end.

End resolver.

(** ** Models of the library functions, for running scenarios

    The theorems on the builder and the resolver hold for every behaviour
    of [urlparse], [unquote] and [ast.literal_eval].  The models below cover
    ASCII input and are what the concrete scenarios run with. *)

Definition lower_char (c : ascii) : ascii :=
  if is_upper c then ascii_of_nat (nat_of_ascii c + 32) else c.

Fixpoint lower (s : string) : string :=
  match s with
  | EmptyString => EmptyString
  | String c r => String (lower_char c) (lower r)
  end.

Fixpoint filter_chars (p : ascii → bool) (s : string) : string :=
  match s with
  | EmptyString => EmptyString
  | String c r => if p c then String c (filter_chars p r) else filter_chars p r
  end.

(** [s.partition(c)] when [c] occurs: the text before its first occurrence
    and the text after it. *)
Definition partition (c : ascii) (s : string) : option (string * string) :=
  match span (λ d, negb (Ascii.eqb c d)) s with
  | (before, String _ after) => Some (before, after)
  | _ => None
  end.

(** [s.rpartition(c)] when [c] occurs: split at its last occurrence. *)
Fixpoint rpartition (c : ascii) (s : string) : option (string * string) :=
  match s with
  | EmptyString => None
  | String d r =>
      match rpartition c r with
      | Some (before, after) => Some (String d before, after)
      | None => if Ascii.eqb c d then Some (EmptyString, r) else None
      end
  end.

Definition is_scheme_char (c : ascii) : bool :=
  is_upper c || is_lower c || is_digit c || char_in c "+-.".

(** The schemes for which [urlparse] splits [;parameters] off the path. *)
Definition uses_params : list string :=
  [""; "ftp"; "hdl"; "prospero"; "http"; "imap"; "https"; "shttp"; "rtsp";
   "rtspu"; "sip"; "sips"; "mms"; "sftp"; "tel"].

(** The decimal value of a string of ASCII digits. *)
Definition int_of_digits (s : string) : Z :=
  foldl (λ n c, (10 * n + Z.of_nat (nat_of_ascii c - 48))%Z) 0%Z
        (list_ascii_of_string s).

(** The [port] property, from the text after the colon of the host part. *)
Definition port_of (text : option string) : exn + option Z :=
  match text with
  | None | Some EmptyString => inr None
  | Some digits =>
      if forall_chars is_digit digits then
        let p := int_of_digits digits in
        if bool_decide (0 ≤ p ≤ 65535)%Z then inr (Some p) else inl ValueError
      else inl ValueError
  end.

(** The [hostname] property: empty is [None]; lower case, except for what
    follows a percent sign. *)
Definition hostname_of (host : string) : option string :=
  match host with
  | EmptyString => None
  | _ =>
      match partition "%" host with
      | Some (h, zone) => Some (lower h +:+ "%" +:+ zone)
      | None => Some (lower host)
      end
  end.

(** The [username] property: what precedes the last at-sign, up to its
    first colon. *)
Definition username_of (netloc : string) : option string :=
  match rpartition "@" netloc with
  | Some (userinfo, _) =>
      match partition ":" userinfo with
      | Some (user, _) => Some user
      | None => Some userinfo
      end
  | None => None
  end.

(** [_splitparams]: the path without the parameters of its last segment. *)
Definition strip_params (url : string) : string :=
  match rpartition "/" url with
  | Some (dir, last) =>
      match partition ";" last with
      | Some (seg, _) => dir +:+ "/" +:+ seg
      | None => url
      end
  | None =>
      match partition ";" url with
      | Some (seg, _) => seg
      | None => url
      end
  end.

(** A model of [urllib.parse.urlparse] for ASCII text.  A network location
    with a square bracket (an IPv6 literal) is not modelled and is reported
    as the [ValueError] that [urlparse] raises for an unbalanced bracket. *)
Definition urlparse_model (url : string) : exn + ParseResult :=
  let url := (span (in_range 0 32) url).2 in
  let url := filter_chars (λ c, negb (char_in c (String "009" (String "010" (String "013" ""))))) url in
  let '(scheme, url) :=
    match partition ":" url with
    | Some (String c pre, rest) =>
        if (is_upper c || is_lower c) && forall_chars is_scheme_char (String c pre)
        then (lower (String c pre), rest)
        else ("", url)
    | _ => ("", url)
    end in
  let '(netloc, url) :=
    match url with
    | String "/" (String "/" rest) => span (λ c, negb (char_in c "/?#")) rest
    | _ => ("", url)
    end in
  if negb (forall_chars (λ c, negb (char_in c "[]")) netloc) then inl ValueError
  else
    let url := from_option fst url (partition "#" url) in
    let url := from_option fst url (partition "?" url) in
    let url := if bool_decide (scheme ∈ uses_params) then strip_params url else url in
    let hostinfo := from_option snd netloc (rpartition "@" netloc) in
    inr (mkParseResult scheme
           (username_of netloc)
           (hostname_of (from_option fst hostinfo (partition ":" hostinfo)))
           (port_of (snd <$> partition ":" hostinfo))
           url).

Definition hex_value (c : ascii) : option nat :=
  if is_digit c then Some (nat_of_ascii c - 48)
  else if in_range 65 70 c then Some (nat_of_ascii c - 55)
  else if in_range 97 102 c then Some (nat_of_ascii c - 87)
  else None.

(** A model of [urllib.parse.unquote] on the bytes of the text: a percent
    sign followed by two hexadecimal digits becomes the byte they name.
    (The library also replaces byte sequences that are not UTF-8; that is
    not modelled.) *)
Fixpoint unquote_model (s : string) : string :=
  match s with
  | EmptyString => EmptyString
  | String c r =>
      match r with
      | String a (String b r') =>
          match Ascii.eqb c "%", hex_value a, hex_value b with
          | true, Some x, Some y => String (ascii_of_nat (16 * x + y)) (unquote_model r')
          | _, _, _ => String c (unquote_model r)
          end
      | _ => String c (unquote_model r)
      end
  end.

(** A model of [ast.literal_eval] on the values [os-release] files carry: a
    string between two equal quotes, without that quote or a backslash
    inside, evaluates to its contents.  Anything else is reported as a
    [SyntaxError] (escape sequences and other literals are not modelled). *)
Definition literal_eval_model (src : string) : exn + pyval :=
  match src with
  | String q r =>
      if Ascii.eqb q "034" || Ascii.eqb q "039" then
        match span (λ c, negb (Ascii.eqb c q || Ascii.eqb c "\" || Ascii.eqb c "010")) r with
        | (body, String _ EmptyString) =>
            if bool_decide (r = body +:+ String q "") then inr (VStr body)
            else inl SyntaxError
        | _ => inl SyntaxError
        end
      else inl SyntaxError
  | EmptyString => inl SyntaxError
  end.

Definition example_settings (value : string) (newer_tab : bool) (mode : Z) : Settings :=
  mkSettings
    (λ key, if bool_decide (key = GSETTINGS_TERMINAL) then value else "")
    (λ key, if bool_decide (key = GSETTINGS_NEW_TAB) then newer_tab else false)
    (λ key, if bool_decide (key = GSETTINGS_FLATPAK) then mode else 0%Z).

(** A file system that holds the given files and nothing else. *)
Definition files (fs : list (string * file)) : filesystem :=
  λ file_path, default Absent (py_dict fs !! file_path).

(** A system whose directories are the given paths. *)
Definition directories_of (paths : list string) : directories :=
  λ path, if bool_decide (path ∈ paths) then Directory else NoSuchDirectory.

Definition example_directories : directories :=
  directories_of ["/"; "/home"; "/home/alice"; "/home/alice/My Docs"].

Definition run {A} (m : M A) (σ : State) : State := (m σ).1.


(** ** How a POSIX shell reads an argument list

    The reference against which the quoting of the remote path is judged:
    token recognition and quote removal of the Shell Command Language
    (sections 2.2 and 2.3), for text made of literal words.  Text with an
    operator, an expansion, a pattern character, a comment or an unfinished
    quote has no reading here ([None]). *)








(** ** Scenarios *)

(** The state once the module has been loaded: [set_terminal_args] run on
    [initial_state] with the given settings and files. *)
Definition loaded (value : string) (newer_tab : bool) (mode : Z)
    (fs : filesystem) : State :=
  run (set_terminal_args literal_eval_model
         (example_settings value newer_tab mode) fs)
      initial_state.

(** A Fedora system: one [os-release] file, under [/etc]. *)
Definition fedora_files : filesystem :=
  files [("/etc/os-release",
          Text ["NAME=" +:+ dquote +:+ "Fedora Linux" +:+ dquote;
                "# the identifier";
                "ID=fedora";
                "VERSION_ID=41"])].

(** ** The distribution identifier, as the specification words it *)

(** The first of the paths that can be read. *)
Fixpoint first_readable (fs : filesystem) (paths : list string)
    : option (string * list string) :=
  match paths with
  | [] => None
  | file_path :: rest =>
      match fs file_path with
      | Text lines => Some (file_path, lines)
      | _ => first_readable fs rest
      end
  end.

(** Following the specification's words: the first [ID=] field found in
    the first readable of the well-known files, with quoting stripped. *)
Definition spec_distribution_id (literal_eval : string → exn + pyval)
    (fs : filesystem) : option pyval :=
  found ← first_readable fs possible_os_release_paths;
  snd <$> head (filter (λ kv, kv.1 = "ID")
                       (read_lines literal_eval found.1 1 found.2).1).

(** ** Lines of a distribution file *)

(** The test of the [continue] in the loop over lines: the line, stripped,
    is empty or starts a comment. *)
Definition is_ignored (line : string) : bool :=
  bool_decide (rstrip line = "") || startswith "#" (rstrip line).

(** The names the pattern accepts: an upper-case letter followed by at
    least one upper-case letter, digit or underscore. *)
Definition is_name (name : string) : bool :=
  match name with
  | String c (String d rest) =>
      is_upper c && forall_chars is_name_char (String d rest)
  | _ => false
  end.

(** ** The menu provider *)

(** What the provider asks of a [Nautilus.FileInfo]. *)
Record FileInfo := mkFileInfo {
  is_directory : bool;
  get_uri_scheme : string;
  get_uri : string;
  get_name : string;
}.

(** A positional argument the host passes: a window, the list of selected
    files, or one folder. *)
Inductive hostarg :=
| Window
| Files (files : list FileInfo)
| Folder (file_ : FileInfo).

(** A [Nautilus.MenuItem] with the file its [activate] handler
    [_menu_activate_cb] was connected with. *)
Record MenuItem := mkMenuItem {
  item_name : string;
  item_label : string;
  item_tip : string;
  item_file : FileInfo;
}.

Section menu_provider.

(** [_], the translation in force, and [str.format]. *)
Variable gettext : string → string.
Variable format : string → list string → exn + string.
Variable dirs : directories.
Variable urlparse : string → exn + ParseResult.
Variable unquote : string → string.


(** [get_file_items], on its positional arguments; the length of a window or of a single file is
    a [TypeError]. *)
Definition get_file_items (args : list hostarg) : M (list MenuItem) :=
  files ← lift (from_option inr (inl IndexError) (py_getitem args (-1)));
  match files with
  | Files files =>
      if negb (length files =? 1)%nat then mret []
      else
        file_ ← lift (from_option inr (inl IndexError) (py_getitem files 0));
        if is_directory file_ then
          g ← get_globals;
          item ←
            (if bool_decide (get_uri_scheme file_ ∈ REMOTE_URI_SCHEME) then
               let uri := get_uri file_ in
               label ← lift (format (gettext "Open Remote {}")
                                    [name (terminal_data g)]);
               tip ← lift (format (gettext "Open Remote {} In {}")
                                  [name (terminal_data g); uri]);
               mret (mkMenuItem "OpenTerminal::open_remote_item" label tip file_)
             else
               let filename := get_name file_ in
               label ← lift (format (gettext "Open In {}")
                                    [name (terminal_data g)]);
               tip ← lift (format (gettext "Open {} In {}")
                                  [name (terminal_data g); filename]);
               mret (mkMenuItem "OpenTerminal::open_file_item" label tip file_));
          mret [item]
        else mret []
  | _ => raise TypeError
  end.

(** [get_background_items], on its positional arguments; a window or a list has no
    [get_uri_scheme]. *)
Definition get_background_items (args : list hostarg) : M (list MenuItem) :=
  file_ ← lift (from_option inr (inl IndexError) (py_getitem args (-1)));
  match file_ with
  | Folder file_ =>
      g ← get_globals;
      item ←
        (if bool_decide (get_uri_scheme file_ ∈ REMOTE_URI_SCHEME) then
           label ← lift (format (gettext "Open Remote {} Here")
                                [name (terminal_data g)]);
           tip ← lift (format (gettext "Open Remote {} In This Directory")
                              [name (terminal_data g)]);
           mret (mkMenuItem "OpenTerminal::open_bg_remote_item" label tip file_)
         else
           label ← lift (format (gettext "Open {} Here")
                                [name (terminal_data g)]);
           tip ← lift (format (gettext "Open {} In This Directory")
                              [name (terminal_data g)]);
           mret (mkMenuItem "OpenTerminal::open_bg_file_item" label tip file_));
      mret [item]
  | _ => raise AttributeError
  end.

End menu_provider.

(** A model of [str.format] for templates whose only fields are empty
    braces, filled from the arguments in order.  Escaped braces and named
    or numbered fields are not modelled and are reported as the
    [ValueError] that a lone brace raises. *)
Fixpoint format_model (template : string) (args : list string) : exn + string :=
  match template with
  | EmptyString => inr EmptyString
  | String c rest =>
      if Ascii.eqb c "{" then
        match rest with
        | String d rest' =>
            if Ascii.eqb d "}" then
              match args with
              | a :: args' =>
                  match format_model rest' args' with
                  | inr s => inr (a +:+ s)
                  | inl e => inl e
                  end
              | [] => inl IndexError
              end
            else inl ValueError
        | EmptyString => inl ValueError
        end
      else if Ascii.eqb c "}" then inl ValueError
      else
        match format_model rest args with
        | inr s => inr (String c s)
        | inl e => inl e
        end
  end.

(** ** The resolved configuration, as a value *)

(** What the globals say once [terminal_cmd] is followed to the list it
    references. *)
Record ResolvedConfig := mkResolvedConfig {
  active_terminal : string;
  command_prefix : option (list arg);
  active_terminal_data : Terminal;
  prefer_new_tab : bool;
  sandbox_mode : string;
}.

Definition resolved (σ : State) : ResolvedConfig :=
  mkResolvedConfig
    (terminal (globals σ))
    (terminal_cmd (globals σ) ≫= λ l, heap σ !! l)
    (terminal_data (globals σ))
    (new_tab (globals σ))
    (flatpak (globals σ)).

(** No global refers to a location that was never allocated. *)
Definition well_formed (σ : State) : Prop :=
  ∀ l, terminal_cmd (globals σ) = Some l → l < length (heap σ).

(** ** The lists the builder assembles *)

(** The list that the remote branch has built when it reads the port. *)
Definition ssh_head (g : Globals) (r : ParseResult) (xs : list arg) : list arg :=
  xs ++ (Some <$> command_arguments (terminal_data g))
     ++ [Some "ssh"; Some "-t"]
     ++ [if truthy_str (username r)
         then Some (format_arg (username r) +:+ "@" +:+ format_arg (hostname r))
         else hostname r].

(** What it adds after that. *)
Definition ssh_tail (unquote : string → string) (r : ParseResult) (p : option Z)
    : list arg :=
  (if truthy_int p then [Some "-p"; Some (pretty (default 0%Z p))] else [])
  ++ (Some <$> ["cd"; shlex_quote (unquote (path r)); ";"; "exec"; "$SHELL"]).

(** The tab or window arguments of the local branch. *)
Definition window_arguments (g : Globals) : list string :=
  if new_tab g && truthy (new_tab_arguments (terminal_data g))
  then the_list (new_tab_arguments (terminal_data g))
  else if truthy (new_window_arguments (terminal_data g))
  then the_list (new_window_arguments (terminal_data g))
  else [].

(** The working-directory arguments of the local branch. *)
Definition directory_arguments (g : Globals) (filename : string) : list string :=
  if negb (bool_decide (filename = "")) && truthy (workdir_arguments (terminal_data g))
  then the_list (workdir_arguments (terminal_data g)) ++ [filename]
  else [].

(** The globals once a known identifier has been stored and the tab
    setting looked at. *)
Definition chosen (gs : Settings) (td : Terminal) (mode : string) (g : Globals)
    : Globals :=
  mkGlobals (get_string gs GSETTINGS_TERMINAL) (terminal_cmd g) td
    (if get_boolean gs GSETTINGS_NEW_TAB && truthy (new_tab_arguments td)
     then get_boolean gs GSETTINGS_NEW_TAB else new_tab g)
    mode.

Definition tab_text (gs : Settings) (td : Terminal) : string :=
  if get_boolean gs GSETTINGS_NEW_TAB && truthy (new_tab_arguments td)
  then "opening in a new tab"
  else if get_boolean gs GSETTINGS_NEW_TAB
  then "opening a new window" +:+ " (terminal does not support tabs)"
  else "opening a new window".

(** * Properties *)

(** ** The monad and the list objects *)

Lemma bind_run {A B} (m : M A) (f : A → M B) σ :
  (m ≫= f) σ =
  match m σ with
  | (σ', Ret a) => f a σ'
  | (σ', Raise e) => (σ', Raise e)
  | (σ', Stuck) => (σ', Stuck)
  end.
Proof. reflexivity. Qed.

Lemma lookup_top {A} (h : list A) (x : A) : (h ++ [x]) !! length h = Some x.
Proof. by rewrite list_lookup_middle. Qed.

Lemma insert_top {A} (h : list A) (x y : A) : <[length h := y]> (h ++ [x]) = h ++ [y].
Proof.
  rewrite insert_app_r_alt by lia. by rewrite Nat.sub_diag.
Qed.

Lemma mapM_id_Some (xs : list string) : mapM id (Some <$> xs) = Some xs.
Proof. by apply mapM_fmap_Some. Qed.

Section state_steps.

Context (g : Globals) (h : list (list arg)) (c : option pyval)
        (o : list string) (sp : list Process).

Lemma run_mret {A} (a : A) σ : mret (M := M) a σ = (σ, Ret a).
Proof. reflexivity. Qed.

Lemma run_lift_inr {A} (a : A) σ : lift (inr a) σ = (σ, Ret a).
Proof. reflexivity. Qed.

Lemma run_lift_inl {A} e σ : lift (A := A) (inl e) σ = (σ, Raise e).
Proof. reflexivity. Qed.

Lemma run_get_globals :
  get_globals (mkState g h c o sp) = (mkState g h c o sp, Ret g).
Proof. reflexivity. Qed.

Lemma run_modify_globals f :
  modify_globals f (mkState g h c o sp) = (mkState (f g) h c o sp, Ret ()).
Proof. reflexivity. Qed.

Lemma run_print line :
  print line (mkState g h c o sp) = (mkState g h c (o ++ [line]) sp, Ret ()).
Proof. reflexivity. Qed.

Lemma run_list_new xs :
  list_new xs (mkState g h c o sp) = (mkState g (h ++ [xs]) c o sp, Ret (length h)).
Proof. reflexivity. Qed.

Lemma run_list_copy l xs :
  h !! l = Some xs →
  list_copy l (mkState g h c o sp) = (mkState g (h ++ [xs]) c o sp, Ret (length h)).
Proof.
  intros Hl. unfold list_copy. rewrite bind_run.
  unfold list_read. cbn [heap]. by rewrite Hl.
Qed.

Lemma run_list_copy_dangling l :
  h !! l = None →
  list_copy l (mkState g h c o sp) = (mkState g h c o sp, Stuck).
Proof.
  intros Hl. unfold list_copy. rewrite bind_run.
  unfold list_read. cbn [heap]. by rewrite Hl.
Qed.

(** The list allocated last is the one at the top of the heap. *)
Lemma run_list_extend xs ys :
  list_extend (length h) ys (mkState g (h ++ [xs]) c o sp)
  = (mkState g (h ++ [xs ++ ys]) c o sp, Ret ()).
Proof.
  unfold list_extend. rewrite bind_run.
  unfold list_read. cbn [heap]. rewrite lookup_top.
  unfold list_write, set_heap. cbn [heap globals distro_id_cache stdout spawned].
  by rewrite insert_top.
Qed.

Lemma run_list_append xs y :
  list_append (length h) y (mkState g (h ++ [xs]) c o sp)
  = (mkState g (h ++ [xs ++ [y]]) c o sp, Ret ()).
Proof. apply run_list_extend. Qed.

Lemma run_list_setitem_0 x y :
  list_setitem (length h) 0 y (mkState g (h ++ [[x]]) c o sp)
  = (mkState g (h ++ [[y]]) c o sp, Ret ()).
Proof.
  unfold list_setitem. rewrite bind_run.
  unfold list_read. cbn [heap globals distro_id_cache stdout spawned].
  rewrite lookup_top. cbv beta iota.
  destruct (decide _) as [_|Hn]; [|cbn in Hn; lia].
  unfold list_write, set_heap. cbn [heap globals distro_id_cache stdout spawned].
  by rewrite insert_top.
Qed.

Lemma run_Popen dirs xs cwd :
  Popen dirs (length h) cwd (mkState g (h ++ [xs]) c o sp)
  = match execute_child dirs xs cwd with
    | inr p => (mkState g (h ++ [xs]) c o (sp ++ [p]), Ret ())
    | inl e => (mkState g (h ++ [xs]) c o sp, Raise e)
    end.
Proof.
  unfold Popen. rewrite bind_run.
  unfold list_read. cbn [heap]. rewrite lookup_top.
  by destruct (execute_child dirs xs cwd).
Qed.

End state_steps.

(** One step of a computation: the head of a bind runs by the given fact. *)
Ltac mrun lem := rewrite lem; cbv beta iota.
Ltac mstep lem := cbv beta iota; rewrite bind_run; mrun lem.

(** Symbolic execution of a computation on a state given field by field. *)
Ltac mauto :=
  repeat first
    [ progress cbv beta iota
    | progress cbn [terminal terminal_cmd terminal_data new_tab flatpak fst snd]
    | rewrite bind_run
    | rewrite run_mret
    | rewrite run_lift_inr
    | rewrite run_lift_inl
    | rewrite run_get_globals
    | rewrite run_modify_globals
    | rewrite run_print
    | rewrite run_list_new
    | rewrite run_list_extend
    | rewrite run_list_append
    | rewrite run_list_setitem_0 ].

Section launcher_facts.

Variable dirs : directories.
Variable urlparse : string → exn + ParseResult.
Variable unquote : string → string.

Lemma open_remote_run uri r g h c o sp l xs :
  urlparse uri = inr r →
  scheme r ∈ REMOTE_URI_SCHEME →
  terminal_cmd g = Some l →
  h !! l = Some xs →
  open_terminal_in_uri dirs urlparse unquote uri (mkState g h c o sp) =
  match port r with
  | inl e => (mkState g (h ++ [ssh_head g r xs]) c o sp, Raise e)
  | inr p =>
      let cmd := ssh_head g r xs ++ ssh_tail unquote r p in
      match execute_child dirs cmd None with
      | inr p => (mkState g (h ++ [cmd]) c o (sp ++ [p]), Ret ())
      | inl e => (mkState g (h ++ [cmd]) c o sp, Raise e)
      end
  end.
Proof.
  intros Hparse Hscheme Hcmd Hxs.
  unfold open_terminal_in_uri. rewrite Hparse.
  mstep @run_lift_inr. mstep run_get_globals. rewrite Hcmd. cbn [copy_of].
  mstep (run_list_copy g h c o sp l xs Hxs).
  rewrite bool_decide_true by done.
  mstep run_list_extend. mstep run_list_extend.
  unfold ssh_head, ssh_tail.
  destruct (truthy_str (username r)); mstep run_list_append;
    (destruct (port r) as [e|p]; [mstep @run_lift_inl | mstep @run_lift_inr]);
    try (by rewrite <- !app_assoc);
    (destruct (truthy_int p);
     [cbv beta iota; rewrite !bind_run; mrun run_list_append; mrun run_list_append
     |mstep @run_mret];
     mstep run_list_extend; rewrite run_Popen; cbv zeta;
     rewrite <- !app_assoc; reflexivity).
Qed.

Lemma open_local_run uri r g h c o sp l xs :
  urlparse uri = inr r →
  scheme r ∉ REMOTE_URI_SCHEME →
  terminal_cmd g = Some l →
  h !! l = Some xs →
  open_terminal_in_uri dirs urlparse unquote uri (mkState g h c o sp) =
  let filename := unquote (path r) in
  let cmd := xs ++ (Some <$> window_arguments g)
                ++ (Some <$> directory_arguments g filename) in
  match execute_child dirs cmd (Some filename) with
  | inr p => (mkState g (h ++ [cmd]) c o (sp ++ [p]), Ret ())
  | inl e => (mkState g (h ++ [cmd]) c o sp, Raise e)
  end.
Proof.
  intros Hparse Hscheme Hcmd Hxs.
  unfold open_terminal_in_uri. rewrite Hparse.
  mstep @run_lift_inr. mstep run_get_globals. rewrite Hcmd. cbn [copy_of].
  mstep (run_list_copy g h c o sp l xs Hxs).
  rewrite bool_decide_false by done.
  unfold window_arguments, directory_arguments. cbv zeta.
  destruct (new_tab g && truthy (new_tab_arguments (terminal_data g)));
    [mstep run_list_extend
    |destruct (truthy (new_window_arguments (terminal_data g)));
     [mstep run_list_extend | mstep @run_mret]];
    (destruct (negb (bool_decide (unquote (path r) = ""))
               && truthy (workdir_arguments (terminal_data g)));
     [cbv beta iota; rewrite !bind_run; mrun run_list_extend; mrun run_list_append
     |mstep @run_mret]);
    rewrite run_Popen; rewrite ?fmap_app, ?app_nil_r, <- ?app_assoc;
    reflexivity.
Qed.

(** The builder never touches the globals, the memo or standard output,
    and every list object that existed keeps its contents: all it does to
    the heap is allocate. *)
Lemma open_terminal_in_uri_frame uri σ :
  let σ' := (open_terminal_in_uri dirs urlparse unquote uri σ).1 in
  globals σ' = globals σ
  ∧ distro_id_cache σ' = distro_id_cache σ
  ∧ stdout σ' = stdout σ
  ∧ (∃ new, heap σ' = heap σ ++ new)
  ∧ resolved σ' = resolved σ.
Proof.
  destruct σ as [g h c o sp]. cbv zeta.
  unfold open_terminal_in_uri.
  destruct (urlparse uri) as [e|r] eqn:Hparse.
  { rewrite bind_run, run_lift_inl. cbn. repeat split. exists []. by rewrite app_nil_r. }
  pose proof (open_remote_run uri r g h c o sp) as Hremote.
  pose proof (open_local_run uri r g h c o sp) as Hlocal.
  unfold open_terminal_in_uri in Hremote, Hlocal. rewrite Hparse in Hremote, Hlocal.
  destruct (terminal_cmd g) as [l|] eqn:Hcmd.
  2:{ mstep @run_lift_inr. mstep run_get_globals. rewrite Hcmd. cbn.
      repeat split. exists []. by rewrite app_nil_r. }
  destruct (h !! l) as [xs|] eqn:Hxs.
  2:{ mstep @run_lift_inr. mstep run_get_globals. rewrite Hcmd. cbn [copy_of].
      rewrite bind_run, (run_list_copy_dangling g h c o sp l Hxs). cbn.
      repeat split. exists []. by rewrite app_nil_r. }
  assert (Hkeep : ∀ new, resolved (mkState g (h ++ new) c o sp)
                         = resolved (mkState g h c o sp)).
  { intros new. unfold resolved. cbn. rewrite Hcmd. cbn.
    by rewrite (lookup_app_l_Some _ _ _ _ Hxs), Hxs. }
  destruct (decide (scheme r ∈ REMOTE_URI_SCHEME)) as [Hs|Hs].
  - rewrite (Hremote l xs eq_refl Hs eq_refl Hxs).
    destruct (port r) as [e|p]; [cbn; eauto 10|].
    cbv zeta. destruct (execute_child _ _ _); cbn; eauto 10.
  - rewrite (Hlocal l xs eq_refl Hs eq_refl Hxs).
    cbv zeta. destruct (execute_child _ _ _); cbn; eauto 10.
Qed.

End launcher_facts.

(** Why the copy matters: extending the list that [terminal_cmd] references
    changes the resolved prefix. *)
Lemma extend_in_place_changes_prefix (σ : State) (l : loc) (xs ys : list arg) :
  terminal_cmd (globals σ) = Some l →
  heap σ !! l = Some xs →
  command_prefix (resolved (run (list_extend l ys) σ)) = Some (xs ++ ys).
Proof.
  intros Hcmd Hxs. destruct σ as [g h c o sp]. cbn in Hcmd, Hxs.
  unfold run, list_extend. rewrite bind_run.
  unfold list_read, list_write, set_heap.
  cbn [heap globals distro_id_cache stdout spawned]. rewrite Hxs.
  unfold resolved. cbn. rewrite Hcmd. cbn.
  apply list_lookup_insert_eq. by eapply lookup_lt_Some.
Qed.

(** ** Quoting for the shell *)









(** ** The command builder *)

(** A list of strings that is not empty is a program and its arguments:
    [Popen] starts it if the working directory, when one is given, can be
    entered. *)
Lemma execute_child_strings (dirs : directories) (argv : list string)
    (cwd : option string) :
  argv ≠ [] →
  execute_child dirs (Some <$> argv) cwd
  = match cwd ≫= chdir dirs with
    | Some e => inl e
    | None => inr (mkProcess argv cwd)
    end.
Proof.
  intros Hne. unfold execute_child. rewrite mapM_id_Some. by destruct argv.
Qed.


(** C9: launching a terminal leaves the resolved configuration as it was.
    For every URI and every state, after [open_terminal_in_uri] the five
    globals hold what they held, the list that [terminal_cmd] references
    has the contents it had (the arguments were appended to a copy), and so
    has every other list object that existed.  This holds whether the call
    returns or raises. *)
Theorem launch_preserves_configuration
    (dirs : directories)
    (urlparse : string → exn + ParseResult) (unquote : string → string)
    (uri : string) (σ : State) :
  let σ' := run (open_terminal_in_uri dirs urlparse unquote uri) σ in
  globals σ' = globals σ
  ∧ resolved σ' = resolved σ
  ∧ ∀ l xs, heap σ !! l = Some xs → heap σ' !! l = Some xs.
Proof.
  cbv zeta. unfold run.
  destruct (open_terminal_in_uri_frame dirs urlparse unquote uri σ)
    as (Hg & _ & _ & [new Hh] & Hr).
  split; [done|]. split; [done|].
  intros l xs Hl. rewrite Hh. by apply lookup_app_l_Some.
Qed.






(** ** The resolver, step by step *)

Section resolver_facts.

Variable literal_eval : string → exn + pyval.

Lemma run_distro_id fs g h c o sp :
  distro_id literal_eval fs (mkState g h c o sp) =
  (mkState g h (cached c (distro_id_body literal_eval fs)).1 o sp,
   (cached c (distro_id_body literal_eval fs)).2).
Proof.
  unfold distro_id. cbn [distro_id_cache].
  by destruct (cached c _).
Qed.

(** An index that [FLATPAK_PARMS] does not have. *)
Lemma set_terminal_args_bad_enum gs fs σ :
  py_getitem FLATPAK_PARMS (get_enum gs GSETTINGS_FLATPAK) = None →
  set_terminal_args literal_eval gs fs σ = (σ, Raise IndexError).
Proof.
  intros Hmode. unfold set_terminal_args. rewrite Hmode. reflexivity.
Qed.

(** An identifier that [TERMINALS] does not have. *)
Lemma set_terminal_args_unknown gs fs g h c o sp mode :
  py_getitem FLATPAK_PARMS (get_enum gs GSETTINGS_FLATPAK) = Some mode →
  TERMINALS !! get_string gs GSETTINGS_TERMINAL = None →
  set_terminal_args literal_eval gs fs (mkState g h c o sp) =
  (mkState (set_flatpak mode g) h c
           (o ++ [unknown_terminal_line (get_string gs GSETTINGS_TERMINAL)]) sp,
   Ret ()).
Proof.
  intros Hmode Hnone. unfold set_terminal_args. rewrite Hmode. cbn [from_option].
  mstep @run_lift_inr. mstep run_modify_globals.
  rewrite Hnone. apply run_print.
Qed.

Lemma set_terminal_args_known gs fs g h c o sp mode td :
  py_getitem FLATPAK_PARMS (get_enum gs GSETTINGS_FLATPAK) = Some mode →
  TERMINALS !! get_string gs GSETTINGS_TERMINAL = Some td →
  let value := get_string gs GSETTINGS_TERMINAL in
  let g1 := set_terminal_cmd (Some (length h)) (chosen gs td mode g) in
  set_terminal_args literal_eval gs fs (mkState g h c o sp) =
  if negb (bool_decide (mode = FLATPAK_PARMS_0))
     && bool_decide (flatpak_package td ≠ None)
  then
    (mkState g1
       (h ++ [[Some "flatpak"; Some "run"; Some ("--" +:+ mode); flatpak_package td]])
       c
       (o ++ [status_line value (tab_text gs td) ("with flatpak as " +:+ mode)])
       sp,
     Ret ())
  else if bool_decide (value = "blackbox") then
    let memo := (cached c (distro_id_body literal_eval fs)).1 in
    match (cached c (distro_id_body literal_eval fs)).2 with
    | Ret d =>
        (mkState (set_flatpak FLATPAK_PARMS_0 g1)
           (h ++ [[Some (if bool_decide (d = VStr "fedora")
                         then "blackbox-terminal" else value)]])
           memo
           (o ++ [status_line value (tab_text gs td) ""])
           sp,
         Ret ())
    | Raise e => (mkState g1 (h ++ [[Some value]]) memo o sp, Raise e)
    | Stuck => (mkState g1 (h ++ [[Some value]]) memo o sp, Stuck)
    end
  else
    (mkState (set_flatpak FLATPAK_PARMS_0 g1) (h ++ [[Some value]]) c
       (o ++ [status_line value (tab_text gs td) ""]) sp,
     Ret ()).
Proof.
  intros Hmode Htd value g1. subst value g1.
  unfold set_terminal_args. rewrite Hmode. cbn [from_option].
  mstep @run_lift_inr. mstep run_modify_globals.
  rewrite Htd.
  mstep run_modify_globals. mstep run_modify_globals.
  unfold chosen, tab_text.
  destruct g as [t0 tc0 td0 nt0 fp0].
  unfold set_flatpak, set_terminal, set_terminal_data, set_terminal_cmd, set_new_tab.
  cbn [terminal terminal_cmd terminal_data new_tab flatpak].
  destruct (get_boolean gs GSETTINGS_NEW_TAB);
    destruct (truthy (new_tab_arguments td)); cbn [andb negb];
    (destruct (negb (bool_decide (mode = FLATPAK_PARMS_0))
               && bool_decide (flatpak_package td ≠ None));
     [by mauto|]);
    (destruct (bool_decide (get_string gs GSETTINGS_TERMINAL = "blackbox"));
     [|by mauto]);
    mauto; rewrite run_distro_id;
    (destruct (cached c (distro_id_body literal_eval fs)) as [memo [d|e|]];
     mauto; [|done..]);
    destruct (bool_decide (d = VStr "fedora")); by mauto.
Qed.

End resolver_facts.

(** ** The registry *)

Lemma FLATPAK_PARMS_0_off : FLATPAK_PARMS_0 = "off".
Proof. reflexivity. Qed.

Lemma TERMINALS_blackbox :
  TERMINALS !! "blackbox"
  = Some (mkTerminal "Black Box" (Some ["--working-directory"]) None None ["-c"]
                     (Some "com.raggesilver.BlackBox")).
Proof. vm_compute. reflexivity. Qed.

(** The identifiers are pairwise different, so the dict holds every entry
    of the literal. *)
Lemma TERMINALS_keys_unique : NoDup (TERMINALS_items.*1).
Proof. compute_done. Qed.

(** Every terminal of the registry has command arguments. *)
Lemma TERMINALS_command_arguments :
  map_Forall (λ _ td, command_arguments td ≠ []) TERMINALS.
Proof. compute_done. Qed.

(** ** The configuration resolver *)

(** The list a fresh reference points to. *)
Lemma command_prefix_top g h c o sp xs :
  terminal_cmd g = Some (length h) →
  command_prefix (resolved (mkState g (h ++ [xs]) c o sp)) = Some xs.
Proof.
  intros Hcmd. unfold resolved. cbn. rewrite Hcmd. cbn. apply lookup_top.
Qed.

(** C7: the prefix under a sandbox mode.  When the mode read from the
    settings is not [off] and the identifier is in the registry, the call
    returns; if the terminal has a package identifier the prefix is
    [flatpak run --MODE PACKAGE] and the mode is kept, and if it has none
    the prefix is the identifier alone and the mode is back to [off]. *)
Theorem sandbox_prefix
    (literal_eval : string → exn + pyval) (gs : Settings) (fs : filesystem)
    (σ : State) (mode : string) (td : Terminal) :
  py_getitem FLATPAK_PARMS (get_enum gs GSETTINGS_FLATPAK) = Some mode →
  mode ≠ "off" →
  TERMINALS !! get_string gs GSETTINGS_TERMINAL = Some td →
  (set_terminal_args literal_eval gs fs σ).2 = Ret ()
  ∧ match flatpak_package td with
    | Some package =>
        command_prefix (resolved (run (set_terminal_args literal_eval gs fs) σ))
        = Some [Some "flatpak"; Some "run"; Some ("--" +:+ mode); Some package]
        ∧ sandbox_mode (resolved (run (set_terminal_args literal_eval gs fs) σ))
          = mode
    | None =>
        command_prefix (resolved (run (set_terminal_args literal_eval gs fs) σ))
        = Some [Some (get_string gs GSETTINGS_TERMINAL)]
        ∧ sandbox_mode (resolved (run (set_terminal_args literal_eval gs fs) σ))
          = "off"
    end.
Proof.
  intros Hmode Hon Htd. destruct σ as [g h c o sp]. unfold run.
  rewrite (set_terminal_args_known literal_eval gs fs g h c o sp mode td Hmode Htd).
  cbv zeta. rewrite FLATPAK_PARMS_0_off.
  rewrite (bool_decide_false (mode = "off")) by done. cbn [negb andb].
  destruct (flatpak_package td) as [package|] eqn:Hpackage.
  - rewrite bool_decide_true by done. cbn [fst snd].
    split; [done|]. split; [by apply command_prefix_top|done].
  - rewrite bool_decide_false by (intros Hne; by apply Hne).
    destruct (bool_decide (get_string gs GSETTINGS_TERMINAL = "blackbox")) eqn:Hbb.
    + apply bool_decide_eq_true in Hbb. rewrite Hbb, TERMINALS_blackbox in Htd.
      injection Htd as <-. discriminate Hpackage.
    + cbn [fst snd]. split; [done|]. split; [by apply command_prefix_top|done].
Qed.

(** The diagnostic of an unknown identifier: the call returns, prints the
    line and keeps the terminal, its data, the prefix, the new-tab flag
    and the heap; the sandbox mode is assigned before the identifier is
    looked up and holds the mode of the settings afterwards. *)
Lemma unknown_identifier_keeps
    (literal_eval : string → exn + pyval) (gs : Settings) (fs : filesystem)
    (σ : State) (mode : string) :
  py_getitem FLATPAK_PARMS (get_enum gs GSETTINGS_FLATPAK) = Some mode →
  TERMINALS !! get_string gs GSETTINGS_TERMINAL = None →
  let out := set_terminal_args literal_eval gs fs σ in
  out.2 = Ret ()
  ∧ stdout out.1
    = stdout σ ++ [unknown_terminal_line (get_string gs GSETTINGS_TERMINAL)]
  ∧ active_terminal (resolved out.1) = active_terminal (resolved σ)
  ∧ command_prefix (resolved out.1) = command_prefix (resolved σ)
  ∧ active_terminal_data (resolved out.1) = active_terminal_data (resolved σ)
  ∧ prefer_new_tab (resolved out.1) = prefer_new_tab (resolved σ)
  ∧ sandbox_mode (resolved out.1) = mode.
Proof.
  intros Hmode Hnone out. subst out. destruct σ as [g h c o sp].
  by rewrite (set_terminal_args_unknown literal_eval gs fs g h c o sp mode
                Hmode Hnone).
Qed.

(** C1: what an unknown identifier leaves behind.  The resolver is run
    with the settings (gnome-terminal, no tab, off), and then with
    (no-such-terminal, no tab, user).  The second call returns, prints its
    diagnostic and keeps terminal, data, prefix and new-tab flag, but the
    sandbox mode, [off] before, is [user] after, next to a prefix that
    starts the terminal directly. *)
Theorem unknown_identifier_overwrites_sandbox_mode :
  let gs := example_settings "no-such-terminal" false 2 in
  let before := loaded "gnome-terminal" false 0 (files []) in
  let out := set_terminal_args literal_eval_model gs (files []) before in
  TERMINALS !! "no-such-terminal" = None
  ∧ out.2 = Ret ()
  ∧ stdout out.1 = stdout before ++ [unknown_terminal_line "no-such-terminal"]
  ∧ active_terminal (resolved out.1) = active_terminal (resolved before)
  ∧ command_prefix (resolved out.1) = Some [Some "gnome-terminal"]
  ∧ command_prefix (resolved before) = Some [Some "gnome-terminal"]
  ∧ sandbox_mode (resolved before) = "off"
  ∧ sandbox_mode (resolved out.1) = "user".
Proof. vm_compute. repeat split; reflexivity. Qed.

(** The new-tab flag is set when a tab is asked for and never cleared: after
    (gnome-terminal, tab) the settings (gnome-terminal, no tab) print
    [opening a new window] and leave the flag set. *)
Lemma new_tab_is_never_cleared :
  let σ := run (set_terminal_args literal_eval_model
                  (example_settings "gnome-terminal" false 0) (files []))
               (loaded "gnome-terminal" true 0 (files [])) in
  prefer_new_tab (resolved σ) = true
  ∧ last (stdout σ)
    = Some (status_line "gnome-terminal" "opening a new window" "")
  ∧ prefer_new_tab (resolved (loaded "gnome-terminal" false 0 (files []))) = false.
Proof. vm_compute. repeat split; reflexivity. Qed.



(** ** The distribution identifier *)

Lemma py_dict_snoc {V} (items : list (string * V)) (kv : string * V) :
  py_dict (items ++ [kv]) = <[kv.1 := kv.2]> (py_dict items).
Proof. unfold py_dict. by rewrite foldl_app. Qed.

(** A key of a dict built from pairs holds the value of the last pair with
    that key. *)
Lemma py_dict_lookup {V} (items : list (string * V)) (k : string) :
  py_dict items !! k = snd <$> last (filter (λ kv, kv.1 = k) items).
Proof.
  induction items as [|kv items IH] using rev_ind; [done|].
  rewrite py_dict_snoc, filter_app.
  destruct (decide (kv.1 = k)) as [Hk|Hk].
  - rewrite (filter_cons_True (λ kv0 : string * V, kv0.1 = k) kv [] Hk).
    rewrite filter_nil, last_snoc. subst k. by rewrite lookup_insert_eq.
  - rewrite (filter_cons_False (λ kv0 : string * V, kv0.1 = k) kv [] Hk).
    rewrite filter_nil, app_nil_r, lookup_insert_ne by done. exact IH.
Qed.

Section distro_facts.

Variable literal_eval : string → exn + pyval.

(** Neither file exists: the reader yields nothing and raises nothing,
    and the lookup of [ID] fails outside the [except OSError] clause. *)
Lemma distro_id_body_no_files fs :
  fs "/etc/os-release" = Absent →
  fs "/usr/lib/os-release" = Absent →
  distro_id_body literal_eval fs = Raise (KeyError "ID").
Proof.
  intros Hetc Husr.
  unfold distro_id_body, read_os_release, possible_os_release_paths.
  cbn [read_paths]. by rewrite Hetc, Husr.
Qed.

(** The first file cannot be opened: [unknown]. *)
Lemma distro_id_body_denied fs :
  fs "/etc/os-release" = Denied →
  distro_id_body literal_eval fs = Ret (VStr "unknown").
Proof.
  intros Hetc.
  unfold distro_id_body, read_os_release, possible_os_release_paths.
  cbn [read_paths]. by rewrite Hetc.
Qed.

(** Exactly one of the two files exists and every line of it is read:
    the identifier is the value of its last [ID=] line. *)
Lemma distro_id_body_one_file fs file_path lines items :
  (file_path = "/etc/os-release"
   ∧ fs "/etc/os-release" = Text lines
   ∧ fs "/usr/lib/os-release" = Absent)
  ∨ (file_path = "/usr/lib/os-release"
     ∧ fs "/etc/os-release" = Absent
     ∧ fs "/usr/lib/os-release" = Text lines) →
  read_lines literal_eval file_path 1 lines = (items, None) →
  distro_id_body literal_eval fs =
  match snd <$> last (filter (λ kv, kv.1 = "ID") items) with
  | Some v => Ret v
  | None => Raise (KeyError "ID")
  end.
Proof.
  intros Hfiles Hread.
  unfold distro_id_body, read_os_release, possible_os_release_paths.
  cbn [read_paths].
  destruct Hfiles as [(-> & Hetc & Husr) | (-> & Hetc & Husr)];
    rewrite Hetc, Husr, ?Hread; cbn [is_FileNotFoundError];
    rewrite ?app_nil_r; by rewrite py_dict_lookup.
Qed.

End distro_facts.

(** C3: where the sentinel is missed.  With neither file present, with a
    file that has no [ID=] line, and with a quoted value that does not
    close, [distro_id] raises ([KeyError], [KeyError], [SyntaxError]), and
    resolving [blackbox] on a system without the files raises with it.  A
    file that cannot be opened and a line that is not an assignment do
    give [unknown], and the prefix then keeps the name [blackbox]. *)
Theorem distro_id_without_an_ID_raises :
  distro_id_body literal_eval_model (files []) = Raise (KeyError "ID")
  ∧ distro_id_body literal_eval_model
      (files [("/etc/os-release", Text ["NAME=Linux"; "VERSION_ID=1"])])
    = Raise (KeyError "ID")
  ∧ distro_id_body literal_eval_model
      (files [("/etc/os-release", Text ["ID=" +:+ dquote +:+ "fedora"])])
    = Raise SyntaxError
  ∧ (set_terminal_args literal_eval_model (example_settings "blackbox" false 0)
       (files []) initial_state).2
    = Raise (KeyError "ID")
  ∧ distro_id_body literal_eval_model (files [("/etc/os-release", Denied)])
    = Ret (VStr "unknown")
  ∧ distro_id_body literal_eval_model
      (files [("/etc/os-release", Text ["ID=fedora"; "not an assignment"])])
    = Ret (VStr "unknown")
  ∧ command_prefix
      (resolved (loaded "blackbox" false 0 (files [("/etc/os-release", Denied)])))
    = Some [Some "blackbox"].
Proof. vm_compute. repeat split; reflexivity. Qed.

(** C8, as stated, fails: [/etc/os-release] cannot be opened and
    [/usr/lib/os-release] says [ID=fedora].  The first readable file gives
    fedora, but the reader stops at the file it cannot open, [distro_id] is
    [unknown], and the prefix keeps the name [blackbox]. *)
Lemma first_readable_file_is_not_consulted :
  let fs := files [("/etc/os-release", Denied);
                   ("/usr/lib/os-release", Text ["ID=fedora"])] in
  spec_distribution_id literal_eval_model fs = Some (VStr "fedora")
  ∧ distro_id_body literal_eval_model fs = Ret (VStr "unknown")
  ∧ command_prefix (resolved (loaded "blackbox" false 0 fs))
    = Some [Some "blackbox"].
Proof. vm_compute. repeat split; reflexivity. Qed.

(** Within one file the last [ID=] line is the one that counts. *)
Lemma last_ID_field_wins :
  let fs := files [("/etc/os-release", Text ["ID=fedora"; "ID=debian"])] in
  spec_distribution_id literal_eval_model fs = Some (VStr "fedora")
  ∧ distro_id_body literal_eval_model fs = Ret (VStr "debian")
  ∧ command_prefix (resolved (loaded "blackbox" false 0 fs))
    = Some [Some "blackbox"].
Proof. vm_compute. repeat split; reflexivity. Qed.

(** When both files exist, both are read, and the second one decides. *)
Lemma both_files_are_read :
  let fs := files [("/etc/os-release", Text ["ID=fedora"]);
                   ("/usr/lib/os-release", Text ["ID=debian"])] in
  spec_distribution_id literal_eval_model fs = Some (VStr "fedora")
  ∧ distro_id_body literal_eval_model fs = Ret (VStr "debian")
  ∧ command_prefix (resolved (loaded "blackbox" false 0 fs))
    = Some [Some "blackbox"].
Proof. vm_compute. repeat split; reflexivity. Qed.

(** C8, amended: the Fedora name of Black Box.  The identifier is
    [blackbox], the sandbox mode is [off], nothing is memoised, exactly one
    of the two files exists (the other is missing), all its lines are read
    without an exception, and its last [ID=] field, quoting stripped, is
    [fedora]: the call returns and the prefix is [blackbox-terminal]. *)
Theorem fedora_blackbox_binary
    (literal_eval : string → exn + pyval) (gs : Settings) (fs : filesystem)
    (σ : State) (file_path : string) (lines : list string)
    (items : list (string * pyval)) :
  get_string gs GSETTINGS_TERMINAL = "blackbox" →
  py_getitem FLATPAK_PARMS (get_enum gs GSETTINGS_FLATPAK) = Some "off" →
  distro_id_cache σ = None →
  (file_path = "/etc/os-release"
   ∧ fs "/etc/os-release" = Text lines
   ∧ fs "/usr/lib/os-release" = Absent)
  ∨ (file_path = "/usr/lib/os-release"
     ∧ fs "/etc/os-release" = Absent
     ∧ fs "/usr/lib/os-release" = Text lines) →
  read_lines literal_eval file_path 1 lines = (items, None) →
  snd <$> last (filter (λ kv, kv.1 = "ID") items) = Some (VStr "fedora") →
  (set_terminal_args literal_eval gs fs σ).2 = Ret ()
  ∧ command_prefix (resolved (run (set_terminal_args literal_eval gs fs) σ))
    = Some [Some "blackbox-terminal"].
Proof.
  intros Hvalue Hmode Hmemo Hfiles Hread Hid.
  destruct σ as [g h c o sp]. cbn in Hmemo. subst c. unfold run.
  assert (Htd := TERMINALS_blackbox). rewrite <- Hvalue in Htd.
  rewrite (set_terminal_args_known literal_eval gs fs g h None o sp "off" _
             Hmode Htd).
  cbv zeta. rewrite FLATPAK_PARMS_0_off, Hvalue.
  rewrite (bool_decide_true ("off" = "off")) by done. cbn [negb andb].
  rewrite (bool_decide_true ("blackbox" = "blackbox")) by done.
  rewrite (distro_id_body_one_file literal_eval fs file_path lines items
             Hfiles Hread), Hid.
  cbn [cached fst snd]. rewrite bool_decide_true by done.
  split; [done|]. by apply command_prefix_top.
Qed.

(** ** The scenarios of the specification, run *)






(** A terminal with working-directory arguments. *)
Lemma local_argv_workdir :
  spawned (run (open_terminal_in_uri example_directories urlparse_model
                  unquote_model "file:///home/alice/My%20Docs")
               (loaded "cool-retro-term" false 0 (files [])))
  = [mkProcess ["cool-retro-term"; "--workdir"; "/home/alice/My Docs"]
               (Some "/home/alice/My Docs")].
Proof. vm_compute. reflexivity. Qed.



(** Scenario B: tilix under the sandbox mode [user]. *)
Lemma sandbox_prefix_scenario :
  command_prefix (resolved (loaded "tilix" false 2 (files [])))
  = Some [Some "flatpak"; Some "run"; Some "--user"; Some "com.gexperts.Tilix"].
Proof.
  pose proof (sandbox_prefix literal_eval_model
                (example_settings "tilix" false 2) (files []) initial_state
                "user"
                (mkTerminal "Tilix" None None None ["-e"]
                            (Some "com.gexperts.Tilix"))) as H.
  destruct H as [_ H]; [reflexivity | discriminate | vm_compute; reflexivity|].
  destruct H as [H _]. exact H.
Defined.


(** Scenario D: blackbox on a Fedora system. *)
Lemma fedora_blackbox_scenario :
  (set_terminal_args literal_eval_model (example_settings "blackbox" false 0)
     fedora_files initial_state).2 = Ret ()
  ∧ command_prefix (resolved (loaded "blackbox" false 0 fedora_files))
    = Some [Some "blackbox-terminal"].
Proof.
  apply (fedora_blackbox_binary literal_eval_model
           (example_settings "blackbox" false 0) fedora_files initial_state
           "/etc/os-release"
           ["NAME=" +:+ dquote +:+ "Fedora Linux" +:+ dquote;
            "# the identifier"; "ID=fedora"; "VERSION_ID=41"]
           [("NAME", VStr "Fedora Linux"); ("ID", VStr "fedora");
            ("VERSION_ID", VStr "41")]);
    [reflexivity | reflexivity | reflexivity
    |left; by vm_compute
    |vm_compute; reflexivity
    |vm_compute; reflexivity].
Defined.

(** ** References stay valid *)

Lemma initial_state_well_formed : well_formed initial_state.
Proof. intros l Hl. discriminate Hl. Qed.

Lemma distro_id_body_not_stuck (literal_eval : string → exn + pyval)
    (fs : filesystem) :
  distro_id_body literal_eval fs ≠ Stuck.
Proof.
  unfold distro_id_body.
  destruct (read_os_release literal_eval fs) as [items [e|]].
  - by destruct (is_OSError e).
  - by destruct (py_dict items !! "ID").
Qed.

(** The resolver leaves a well-formed state well formed and never gets
    stuck. *)
Lemma set_terminal_args_well_formed
    (literal_eval : string → exn + pyval) (gs : Settings) (fs : filesystem)
    (σ : State) :
  well_formed σ →
  well_formed (run (set_terminal_args literal_eval gs fs) σ)
  ∧ (set_terminal_args literal_eval gs fs σ).2 ≠ Stuck.
Proof.
  intros Hwf. destruct σ as [g h c o sp]. unfold run.
  destruct (py_getitem FLATPAK_PARMS (get_enum gs GSETTINGS_FLATPAK))
    as [mode|] eqn:Hmode.
  2:{ by rewrite set_terminal_args_bad_enum. }
  destruct (TERMINALS !! get_string gs GSETTINGS_TERMINAL) as [td|] eqn:Htd.
  2:{ by rewrite (set_terminal_args_unknown literal_eval gs fs g h c o sp mode). }
  rewrite (set_terminal_args_known literal_eval gs fs g h c o sp mode td Hmode Htd).
  cbv zeta.
  assert (Hfresh : ∀ g' x c' o',
             terminal_cmd g' = Some (length h) →
             well_formed (mkState g' (h ++ [x]) c' o' sp)).
  { intros g' x c' o' Hcmd l Hl. cbn in Hl. rewrite Hcmd in Hl.
    injection Hl as <-. cbn. rewrite length_app. cbn. lia. }
  destruct (negb (bool_decide (mode = FLATPAK_PARMS_0))
            && bool_decide (flatpak_package td ≠ None)).
  { split; [by apply Hfresh|done]. }
  destruct (bool_decide (get_string gs GSETTINGS_TERMINAL = "blackbox")).
  2:{ split; [by apply Hfresh|done]. }
  pose proof (distro_id_body_not_stuck literal_eval fs) as Hbody.
  unfold cached.
  destruct c as [v|]; [split; [by apply Hfresh|done]|].
  destruct (distro_id_body literal_eval fs) as [d|e|];
    [split; [by apply Hfresh|done]..|done].
Qed.

(** So does the builder. *)
Lemma open_terminal_in_uri_well_formed
    (dirs : directories)
    (urlparse : string → exn + ParseResult) (unquote : string → string)
    (uri : string) (σ : State) :
  well_formed σ →
  well_formed (run (open_terminal_in_uri dirs urlparse unquote uri) σ)
  ∧ (open_terminal_in_uri dirs urlparse unquote uri σ).2 ≠ Stuck.
Proof.
  intros Hwf. split.
  - destruct (open_terminal_in_uri_frame dirs urlparse unquote uri σ)
      as (Hg & _ & _ & [new Hh] & _).
    intros l Hl. unfold run in *. rewrite Hg in Hl. rewrite Hh, length_app.
    specialize (Hwf l Hl). lia.
  - destruct σ as [g h c o sp]. unfold open_terminal_in_uri.
    destruct (urlparse uri) as [e|r] eqn:Hparse.
    { by rewrite bind_run, run_lift_inl. }
    pose proof (open_remote_run dirs urlparse unquote uri r g h c o sp) as Hremote.
    pose proof (open_local_run dirs urlparse unquote uri r g h c o sp) as Hlocal.
    unfold open_terminal_in_uri in Hremote, Hlocal.
    rewrite Hparse in Hremote, Hlocal.
    destruct (terminal_cmd g) as [l|] eqn:Hcmd.
    2:{ mstep @run_lift_inr. mstep run_get_globals. by rewrite Hcmd. }
    destruct (lookup_lt_is_Some_2 h l (Hwf l Hcmd)) as [xs Hxs].
    destruct (decide (scheme r ∈ REMOTE_URI_SCHEME)) as [Hs|Hs].
    + rewrite (Hremote l xs eq_refl Hs eq_refl Hxs).
      destruct (port r) as [e|p]; [done|]. cbv zeta.
      by destruct (execute_child _ _ _).
    + rewrite (Hlocal l xs eq_refl Hs eq_refl Hxs).
      cbv zeta. by destruct (execute_child _ _ _).
Qed.

(** After a resolution that returned, the prefix is a list of strings, as
    the theorems on the builder assume. *)
Lemma resolved_prefix_is_strings
    (literal_eval : string → exn + pyval) (gs : Settings) (fs : filesystem)
    (σ : State) (td : Terminal) :
  TERMINALS !! get_string gs GSETTINGS_TERMINAL = Some td →
  (set_terminal_args literal_eval gs fs σ).2 = Ret () →
  ∃ l prefix,
    terminal_cmd (globals (run (set_terminal_args literal_eval gs fs) σ)) = Some l
    ∧ heap (run (set_terminal_args literal_eval gs fs) σ) !! l
      = Some (Some <$> prefix).
Proof.
  intros Htd Hret. destruct σ as [g h c o sp]. unfold run in *.
  destruct (py_getitem FLATPAK_PARMS (get_enum gs GSETTINGS_FLATPAK))
    as [mode|] eqn:Hmode.
  2:{ by rewrite set_terminal_args_bad_enum in Hret. }
  revert Hret.
  rewrite (set_terminal_args_known literal_eval gs fs g h c o sp mode td Hmode Htd).
  cbv zeta.
  destruct (negb (bool_decide (mode = FLATPAK_PARMS_0))
            && bool_decide (flatpak_package td ≠ None)) eqn:Hsand.
  { intros _. apply andb_prop in Hsand as [_ Hpkg].
    apply bool_decide_eq_true in Hpkg.
    destruct (flatpak_package td) as [package|]; [|done].
    exists (length h), ["flatpak"; "run"; "--" +:+ mode; package].
    split; [done|]. cbn. apply lookup_top. }
  destruct (bool_decide (get_string gs GSETTINGS_TERMINAL = "blackbox")).
  2:{ intros _. exists (length h), [get_string gs GSETTINGS_TERMINAL].
      split; [done|]. cbn. apply lookup_top. }
  destruct (cached c (distro_id_body literal_eval fs)) as [memo [d|e|]];
    cbn [fst snd]; [|done..].
  intros _. eexists (length h), [_]. split; [done|]. cbn. apply lookup_top.
Qed.

(** * Further properties of the resolver and the builder *)

(** ** Two resolutions in a row *)

Lemma cached_twice (memo : option pyval) (body : result pyval) :
  cached (cached memo body).1 body = cached memo body.
Proof. destruct memo as [v|]; [done|]. by destruct body. Qed.

Lemma chosen_twice gs td mode l g :
  chosen gs td mode (set_terminal_cmd l (chosen gs td mode g))
  = set_terminal_cmd l (chosen gs td mode g).
Proof.
  unfold chosen, set_terminal_cmd. cbn. f_equal. by destruct (_ && _).
Qed.

(** X1: resolving twice is resolving once.  A second call of
    [set_terminal_args] with the same settings and files, right after the
    first, ends as the first did (returns, or raises the same exception)
    and leaves the same terminal, prefix, terminal data, new-tab flag,
    sandbox mode and memo; this holds for unknown identifiers and for
    calls that raise as well. *)
Theorem resolve_twice_is_resolve_once
    (literal_eval : string → exn + pyval) (gs : Settings) (fs : filesystem)
    (σ : State) :
  let out1 := set_terminal_args literal_eval gs fs σ in
  let out2 := set_terminal_args literal_eval gs fs out1.1 in
  out2.2 = out1.2
  ∧ resolved out2.1 = resolved out1.1
  ∧ distro_id_cache out2.1 = distro_id_cache out1.1.
Proof.
  cbv zeta. destruct σ as [g h c o sp].
  destruct (py_getitem FLATPAK_PARMS (get_enum gs GSETTINGS_FLATPAK))
    as [mode|] eqn:Hmode.
  2:{ by rewrite !set_terminal_args_bad_enum. }
  destruct (TERMINALS !! get_string gs GSETTINGS_TERMINAL) as [td|] eqn:Htd.
  2:{ rewrite (set_terminal_args_unknown literal_eval gs fs g h c o sp mode)
        by done.
      cbn [fst snd].
      by rewrite (set_terminal_args_unknown literal_eval gs fs _ h c _ sp mode). }
  assert (Hsame : ∀ g1 g2 h1 h2 x c1 c2 o1 o2,
             terminal_cmd g1 = Some (length h1) →
             terminal_cmd g2 = Some (length h2) →
             terminal g1 = terminal g2 → terminal_data g1 = terminal_data g2 →
             new_tab g1 = new_tab g2 → flatpak g1 = flatpak g2 →
             resolved (mkState g1 (h1 ++ [x]) c1 o1 sp)
             = resolved (mkState g2 (h2 ++ [x]) c2 o2 sp)).
  { intros g1 g2 h1 h2 x c1 c2 o1 o2 H1 H2 Ht Htd' Hn Hf.
    unfold resolved. cbn. rewrite H1, H2. cbn. rewrite !lookup_top.
    by rewrite Ht, Htd', Hn, Hf. }
  assert (Htab : ∀ l, new_tab (chosen gs td mode
                                 (set_terminal_cmd l (chosen gs td mode g)))
                      = new_tab (chosen gs td mode g)).
  { intros l. by rewrite chosen_twice. }
  assert (Htab' : ∀ l, new_tab (chosen gs td mode
                     (set_flatpak FLATPAK_PARMS_0
                        (set_terminal_cmd l (chosen gs td mode g))))
                      = new_tab (chosen gs td mode g)).
  { intros l. unfold chosen, set_flatpak, set_terminal_cmd. cbn.
    by destruct (_ && _). }
  rewrite (set_terminal_args_known literal_eval gs fs g h c o sp mode td Hmode Htd).
  cbv zeta.
  destruct (negb (bool_decide (mode = FLATPAK_PARMS_0))
            && bool_decide (flatpak_package td ≠ None)) eqn:Hsand.
  { cbn [fst snd].
    rewrite (set_terminal_args_known literal_eval gs fs _ _ c _ sp mode td Hmode Htd).
    cbv zeta. rewrite Hsand. cbn [fst snd].
    split; [done|]. split; [|done].
    apply Hsame; first [done | apply Htab | apply Htab']. }
  destruct (bool_decide (get_string gs GSETTINGS_TERMINAL = "blackbox")) eqn:Hbb.
  2:{ cbn [fst snd].
      rewrite (set_terminal_args_known literal_eval gs fs _ _ c _ sp mode td Hmode Htd).
      cbv zeta. rewrite Hsand, Hbb. cbn [fst snd].
      split; [done|]. split; [|done].
    apply Hsame; first [done | apply Htab | apply Htab']. }
  pose proof (cached_twice c (distro_id_body literal_eval fs)) as Hmemo.
  destruct (cached c (distro_id_body literal_eval fs)) as [memo [d|e|]] eqn:Hc;
    cbn [fst snd] in *;
    rewrite (set_terminal_args_known literal_eval gs fs _ _ memo _ sp mode td
               Hmode Htd);
    cbv zeta; rewrite Hsand, Hbb, Hmemo; cbn [fst snd];
    (split; [done|]); (split; [|done]);
    apply Hsame; first [done | apply Htab | apply Htab'].
Qed.

(** ** When the resolver returns *)

(** X2: the resolver returns unless it has to detect the distribution.
    With a sandbox mode that [FLATPAK_PARMS] has, the call returns and
    prints exactly one line whenever the identifier is not [blackbox], or
    the mode is not [off], or the distribution is already memoised. *)
Theorem resolver_returns
    (literal_eval : string → exn + pyval) (gs : Settings) (fs : filesystem)
    (σ : State) (mode : string) :
  py_getitem FLATPAK_PARMS (get_enum gs GSETTINGS_FLATPAK) = Some mode →
  get_string gs GSETTINGS_TERMINAL ≠ "blackbox"
  ∨ mode ≠ "off"
  ∨ distro_id_cache σ ≠ None →
  (set_terminal_args literal_eval gs fs σ).2 = Ret ()
  ∧ ∃ line, stdout (run (set_terminal_args literal_eval gs fs) σ)
            = stdout σ ++ [line].
Proof.
  intros Hmode Hcase. destruct σ as [g h c o sp]. unfold run.
  destruct (TERMINALS !! get_string gs GSETTINGS_TERMINAL) as [td|] eqn:Htd.
  2:{ rewrite (set_terminal_args_unknown literal_eval gs fs g h c o sp mode)
        by done. cbn. eauto. }
  rewrite (set_terminal_args_known literal_eval gs fs g h c o sp mode td Hmode Htd).
  cbv zeta. rewrite FLATPAK_PARMS_0_off.
  destruct (bool_decide (get_string gs GSETTINGS_TERMINAL = "blackbox")) eqn:Hbb.
  - apply bool_decide_eq_true in Hbb.
    rewrite Hbb, TERMINALS_blackbox in Htd. injection Htd as <-.
    cbn [flatpak_package]. rewrite (bool_decide_true (Some _ ≠ None)) by done.
    destruct (bool_decide (mode = "off")) eqn:Hoff; cbn [negb andb].
    2:{ cbn. eauto. }
    apply bool_decide_eq_true in Hoff.
    destruct Hcase as [Hne | [Hne | Hmemo]]; [done..|].
    destruct c as [v|]; [|done]. cbn. eauto.
  - destruct (negb (bool_decide (mode = "off"))
              && bool_decide (flatpak_package td ≠ None)); cbn; eauto.
Qed.

(** X3: a sandbox value that [FLATPAK_PARMS] cannot be indexed with.  For
    an enum value below -3 or above 2 the call raises [IndexError] before
    anything is assigned or printed: the state is the one before. *)
Theorem resolver_enum_out_of_range
    (literal_eval : string → exn + pyval) (gs : Settings) (fs : filesystem)
    (σ : State) :
  (get_enum gs GSETTINGS_FLATPAK < -3 ∨ 3 ≤ get_enum gs GSETTINGS_FLATPAK)%Z →
  set_terminal_args literal_eval gs fs σ = (σ, Raise IndexError).
Proof.
  intros Hrange. apply set_terminal_args_bad_enum.
  unfold py_getitem, FLATPAK_PARMS. cbn [length].
  rewrite !bool_decide_false by lia. reflexivity.
Qed.

(** X4: a memoised distribution is not detected again.  Once [distro_id]
    has a memoised value, the resolver does the same whatever the
    distribution files hold. *)
Theorem resolver_ignores_files_once_memoised
    (literal_eval : string → exn + pyval) (gs : Settings)
    (fs1 fs2 : filesystem) (σ : State) (d : pyval) :
  distro_id_cache σ = Some d →
  set_terminal_args literal_eval gs fs1 σ = set_terminal_args literal_eval gs fs2 σ.
Proof.
  intros Hmemo. destruct σ as [g h c o sp]. cbn in Hmemo. subst c.
  destruct (py_getitem FLATPAK_PARMS (get_enum gs GSETTINGS_FLATPAK))
    as [mode|] eqn:Hmode.
  2:{ by rewrite !set_terminal_args_bad_enum. }
  destruct (TERMINALS !! get_string gs GSETTINGS_TERMINAL) as [td|] eqn:Htd.
  2:{ by rewrite !(set_terminal_args_unknown literal_eval gs _ g h (Some d) o sp mode). }
  by rewrite !(set_terminal_args_known literal_eval gs _ g h (Some d) o sp mode td
                 Hmode Htd).
Qed.

(** X5: prefix and sandbox mode agree after a resolution.  When the
    resolver returns for an identifier of the registry, either the sandbox
    mode is [off] and the prefix is the identifier alone (or
    [blackbox-terminal] for [blackbox]), or the sandbox mode is the mode of
    the settings, which is not [off], the terminal has a package
    identifier, and the prefix is [flatpak run --MODE PACKAGE]. *)
Theorem prefix_agrees_with_sandbox_mode
    (literal_eval : string → exn + pyval) (gs : Settings) (fs : filesystem)
    (σ : State) (mode : string) (td : Terminal) :
  py_getitem FLATPAK_PARMS (get_enum gs GSETTINGS_FLATPAK) = Some mode →
  TERMINALS !! get_string gs GSETTINGS_TERMINAL = Some td →
  (set_terminal_args literal_eval gs fs σ).2 = Ret () →
  let σ' := run (set_terminal_args literal_eval gs fs) σ in
  let value := get_string gs GSETTINGS_TERMINAL in
  (sandbox_mode (resolved σ') = "off"
   ∧ (command_prefix (resolved σ') = Some [Some value]
      ∨ value = "blackbox"
        ∧ command_prefix (resolved σ') = Some [Some "blackbox-terminal"]))
  ∨ (sandbox_mode (resolved σ') = mode
     ∧ mode ≠ "off"
     ∧ ∃ package,
         flatpak_package td = Some package
         ∧ command_prefix (resolved σ')
           = Some [Some "flatpak"; Some "run"; Some ("--" +:+ mode); Some package]).
Proof.
  intros Hmode Htd Hret σ' value. subst σ' value.
  destruct σ as [g h c o sp]. unfold run in *. revert Hret.
  rewrite (set_terminal_args_known literal_eval gs fs g h c o sp mode td Hmode Htd).
  cbv zeta. rewrite FLATPAK_PARMS_0_off.
  destruct (negb (bool_decide (mode = "off"))
            && bool_decide (flatpak_package td ≠ None)) eqn:Hsand.
  { intros _. right. apply andb_prop in Hsand as [Hoff Hpkg].
    apply negb_true_iff, bool_decide_eq_false in Hoff.
    apply bool_decide_eq_true in Hpkg.
    destruct (flatpak_package td) as [package|]; [|done].
    cbn [fst snd]. split; [done|]. split; [done|].
    exists package. split; [done|]. by apply command_prefix_top. }
  destruct (bool_decide (get_string gs GSETTINGS_TERMINAL = "blackbox")) eqn:Hbb.
  2:{ intros _. left. cbn [fst snd]. split; [done|]. left.
      by apply command_prefix_top. }
  apply bool_decide_eq_true in Hbb.
  destruct (cached c (distro_id_body literal_eval fs)) as [memo [d|e|]];
    cbn [fst snd]; [|done..].
  intros _. left. split; [done|].
  destruct (bool_decide (d = VStr "fedora")).
  - right. split; [done|]. by apply command_prefix_top.
  - left. by apply command_prefix_top.
Qed.

(** X6: what the resolver leaves alone.  A call of [set_terminal_args]
    starts no process and keeps the contents of every list object that
    existed; it prints one line when it returns and nothing when it
    raises. *)
Theorem resolver_frame
    (literal_eval : string → exn + pyval) (gs : Settings) (fs : filesystem)
    (σ : State) :
  let out := set_terminal_args literal_eval gs fs σ in
  spawned out.1 = spawned σ
  ∧ (∀ l xs, heap σ !! l = Some xs → heap out.1 !! l = Some xs)
  ∧ (out.2 = Ret () → ∃ line, stdout out.1 = stdout σ ++ [line])
  ∧ (out.2 ≠ Ret () → stdout out.1 = stdout σ).
Proof.
  cbv zeta. destruct σ as [g h c o sp].
  destruct (py_getitem FLATPAK_PARMS (get_enum gs GSETTINGS_FLATPAK))
    as [mode|] eqn:Hmode.
  2:{ rewrite set_terminal_args_bad_enum by done. cbn. by repeat split. }
  destruct (TERMINALS !! get_string gs GSETTINGS_TERMINAL) as [td|] eqn:Htd.
  2:{ rewrite (set_terminal_args_unknown literal_eval gs fs g h c o sp mode)
        by done. cbn. repeat split; eauto. done. }
  rewrite (set_terminal_args_known literal_eval gs fs g h c o sp mode td Hmode Htd).
  cbv zeta.
  assert (Hkeep : ∀ x l xs, h !! l = Some xs → (h ++ [x]) !! l = Some xs).
  { intros x l xs Hl. by apply lookup_app_l_Some. }
  destruct (negb (bool_decide (mode = FLATPAK_PARMS_0))
            && bool_decide (flatpak_package td ≠ None)).
  { cbn. repeat split; eauto. done. }
  destruct (bool_decide (get_string gs GSETTINGS_TERMINAL = "blackbox")).
  2:{ cbn. repeat split; eauto. done. }
  destruct (cached c (distro_id_body literal_eval fs)) as [memo [d|e|]];
    cbn; repeat split; eauto; done.
Qed.

(** ** What a launch starts *)

(** X7: one launch, at most one process.  [open_terminal_in_uri] starts
    exactly one process when it returns and none when it raises, and it
    prints nothing. *)
Theorem launch_starts_at_most_one_process
    (dirs : directories)
    (urlparse : string → exn + ParseResult) (unquote : string → string)
    (uri : string) (σ : State) :
  let out := open_terminal_in_uri dirs urlparse unquote uri σ in
  (out.2 = Ret () → ∃ p, spawned out.1 = spawned σ ++ [p])
  ∧ (out.2 ≠ Ret () → spawned out.1 = spawned σ)
  ∧ stdout out.1 = stdout σ.
Proof.
  cbv zeta. destruct σ as [g h c o sp].
  unfold open_terminal_in_uri.
  destruct (urlparse uri) as [e|r] eqn:Hparse.
  { rewrite bind_run, run_lift_inl. cbn. by repeat split. }
  pose proof (open_remote_run dirs urlparse unquote uri r g h c o sp) as Hremote.
  pose proof (open_local_run dirs urlparse unquote uri r g h c o sp) as Hlocal.
  unfold open_terminal_in_uri in Hremote, Hlocal.
  rewrite Hparse in Hremote, Hlocal.
  destruct (terminal_cmd g) as [l|] eqn:Hcmd.
  2:{ mstep @run_lift_inr. mstep run_get_globals. rewrite Hcmd. cbn.
      by repeat split. }
  destruct (h !! l) as [xs|] eqn:Hxs.
  2:{ mstep @run_lift_inr. mstep run_get_globals. rewrite Hcmd. cbn [copy_of].
      rewrite bind_run, (run_list_copy_dangling g h c o sp l Hxs). cbn.
      by repeat split. }
  destruct (decide (scheme r ∈ REMOTE_URI_SCHEME)) as [Hs|Hs].
  - rewrite (Hremote l xs eq_refl Hs eq_refl Hxs).
    destruct (port r) as [e|p]; [cbn; by repeat split|].
    cbv zeta. destruct (execute_child _ _ _); cbn; repeat split; eauto; done.
  - rewrite (Hlocal l xs eq_refl Hs eq_refl Hxs).
    cbv zeta. destruct (execute_child _ _ _); cbn; repeat split; eauto; done.
Qed.

(** X8: a launch before any resolution.  While [terminal_cmd] is still
    [None] (the settings schema was not found, or the identifier of the
    settings was unknown when the module was loaded), a launch raises
    [AttributeError] and changes nothing. *)
Theorem launch_without_prefix
    (dirs : directories)
    (urlparse : string → exn + ParseResult) (unquote : string → string)
    (uri : string) (r : ParseResult) (σ : State) :
  urlparse uri = inr r →
  terminal_cmd (globals σ) = None →
  open_terminal_in_uri dirs urlparse unquote uri σ = (σ, Raise AttributeError).
Proof.
  intros Hparse Hcmd. destruct σ as [g h c o sp]. cbn in Hcmd.
  unfold open_terminal_in_uri. rewrite Hparse.
  mstep @run_lift_inr. mstep run_get_globals. by rewrite Hcmd.
Qed.

(** The module loaded with an unknown identifier, then a launch. *)
Lemma launch_without_prefix_scenario :
  open_terminal_in_uri example_directories urlparse_model unquote_model
    "file:///home/alice"
    (loaded "no-such-terminal" false 0 (files []))
  = (loaded "no-such-terminal" false 0 (files []), Raise AttributeError).
Proof.
  apply (launch_without_prefix example_directories urlparse_model unquote_model
           "file:///home/alice"
           (mkParseResult "file" None None (inr None) "/home/alice"));
    vm_compute; reflexivity.
Defined.

(** X9: remote locations that start nothing.  In the remote branch, with a
    prefix resolved: a port that is not a number in range makes the call
    raise the [ValueError] of the [port] property, and a URI without a
    host and without a user name puts [None] into the arguments, which
    [Popen] refuses with [TypeError]; no process is started in either
    case. *)
Theorem remote_launch_failures
    (dirs : directories)
    (urlparse : string → exn + ParseResult) (unquote : string → string)
    (σ : State) (uri : string) (r : ParseResult) (l : loc) (xs : list arg) :
  urlparse uri = inr r →
  scheme r ∈ REMOTE_URI_SCHEME →
  terminal_cmd (globals σ) = Some l →
  heap σ !! l = Some xs →
  let out := open_terminal_in_uri dirs urlparse unquote uri σ in
  (∀ e, port r = inl e → out.2 = Raise e ∧ spawned out.1 = spawned σ)
  ∧ (∀ p, port r = inr p → hostname r = None →
          truthy_str (username r) = false →
          out.2 = Raise TypeError ∧ spawned out.1 = spawned σ).
Proof.
  intros Hparse Hscheme Hcmd Hxs out. subst out.
  destruct σ as [g h c o sp]. cbn in Hcmd, Hxs.
  rewrite (open_remote_run dirs urlparse unquote uri r g h c o sp l xs
             Hparse Hscheme Hcmd Hxs).
  split.
  - intros e He. by rewrite He.
  - intros p Hp Hhost Huser. rewrite Hp. cbv zeta.
    assert (Hnone : mapM id (ssh_head g r xs ++ ssh_tail unquote r p) = None).
    { apply mapM_None. unfold ssh_head. rewrite Huser, Hhost.
      rewrite !Exists_app. left. right. right. right.
      by apply Exists_cons_hd. }
    unfold execute_child. by rewrite Hnone.
Qed.

(** A URI without a host, and one with a port out of range. *)
Lemma remote_launch_failures_scenario :
  let σ := loaded "xterm" false 0 (files []) in
  (open_terminal_in_uri example_directories urlparse_model unquote_model
     "sftp:///srv/data" σ).2
  = Raise TypeError
  ∧ spawned (open_terminal_in_uri example_directories urlparse_model
               unquote_model "sftp:///srv/data" σ).1 = spawned σ.
Proof.
  cbv zeta.
  pose proof (remote_launch_failures example_directories urlparse_model
                unquote_model
                (loaded "xterm" false 0 (files [])) "sftp:///srv/data"
                (mkParseResult "sftp" None None (inr None) "/srv/data")
                0 [Some "xterm"]) as H.
  destruct H as [_ H];
    [vm_compute; reflexivity | by right; left | reflexivity..|].
  exact (H None eq_refl eq_refl eq_refl).
Defined.

(** X20: the empty path starts nothing.  In the local branch, with a prefix
    resolved, a URI whose decoded path is empty makes the call build the
    prefix and the tab or window arguments, without working-directory
    arguments, and hand them to [Popen] with the empty string as working
    directory, which no process can enter: the call raises
    [FileNotFoundError] and starts nothing, whatever directories the
    system has. *)
Theorem empty_path_starts_nothing
    (dirs : directories)
    (urlparse : string → exn + ParseResult) (unquote : string → string)
    (σ : State) (uri : string) (r : ParseResult) (l : loc)
    (program : string) (arguments : list string) :
  urlparse uri = inr r →
  scheme r ∉ REMOTE_URI_SCHEME →
  terminal_cmd (globals σ) = Some l →
  heap σ !! l = Some (Some <$> program :: arguments) →
  unquote (path r) = "" →
  let out := open_terminal_in_uri dirs urlparse unquote uri σ in
  out.2 = Raise (FileNotFoundError "")
  ∧ spawned out.1 = spawned σ
  ∧ heap out.1 !! length (heap σ)
    = Some (Some <$> program :: arguments ++ window_arguments (globals σ)).
Proof.
  intros Hparse Hscheme Hcmd Hxs Hempty out. subst out.
  destruct σ as [g h c o sp]. cbn [globals heap spawned] in *.
  rewrite (open_local_run dirs urlparse unquote uri r g h c o sp l _
             Hparse Hscheme Hcmd Hxs).
  cbv zeta. rewrite Hempty.
  change (directory_arguments g "") with (@nil string).
  rewrite fmap_nil, app_nil_r, <- fmap_app, execute_child_strings by done.
  cbn [mbind option_bind].
  change (chdir dirs "") with (Some (FileNotFoundError "")).
  cbn [fst snd heap spawned]. by rewrite lookup_top.
Qed.

(** [file://] with prompt and a tab asked for. *)
Lemma empty_path_scenario :
  let σ := loaded "prompt" true 0 (files []) in
  let out := open_terminal_in_uri example_directories urlparse_model
               unquote_model "file://" σ in
  out.2 = Raise (FileNotFoundError "")
  ∧ spawned out.1 = spawned σ
  ∧ heap out.1 !! length (heap σ) = Some [Some "prompt"; Some "--tab"].
Proof.
  cbv zeta.
  pose proof (empty_path_starts_nothing example_directories urlparse_model
                unquote_model (loaded "prompt" true 0 (files [])) "file://"
                (mkParseResult "file" None None (inr None) "")
                0 "prompt" []) as H.
  destruct H as (H1 & H2 & H3);
    [vm_compute; reflexivity
    |unfold REMOTE_URI_SCHEME; rewrite !elem_of_cons, elem_of_nil;
     by intros [?|[?|[]]]
    |reflexivity..|].
  split; [exact H1|]. split; [exact H2|].
  vm_compute in H3. vm_compute. exact H3.
Defined.

(** ** Resolving, then launching *)






(** Witnesses of the properties of the resolver. *)
Lemma resolver_returns_scenario :
  (set_terminal_args literal_eval_model (example_settings "blackbox" true 1)
     (files []) initial_state).2 = Ret ()
  ∧ ∃ line,
      stdout (run (set_terminal_args literal_eval_model
                     (example_settings "blackbox" true 1) (files []))
                  initial_state)
      = stdout initial_state ++ [line].
Proof.
  apply (resolver_returns literal_eval_model
           (example_settings "blackbox" true 1) (files []) initial_state
           "system");
    [reflexivity | right; left; discriminate].
Defined.

Lemma resolver_enum_out_of_range_scenario :
  set_terminal_args literal_eval_model (example_settings "xterm" false 3)
    (files []) initial_state
  = (initial_state, Raise IndexError).
Proof.
  apply (resolver_enum_out_of_range literal_eval_model
           (example_settings "xterm" false 3) (files []) initial_state).
  right. vm_compute. discriminate.
Defined.

Lemma resolver_ignores_files_scenario :
  set_terminal_args literal_eval_model (example_settings "blackbox" false 0)
    (files []) (loaded "blackbox" false 0 fedora_files)
  = set_terminal_args literal_eval_model (example_settings "blackbox" false 0)
      fedora_files (loaded "blackbox" false 0 fedora_files).
Proof.
  apply (resolver_ignores_files_once_memoised literal_eval_model
           (example_settings "blackbox" false 0) (files []) fedora_files
           (loaded "blackbox" false 0 fedora_files) (VStr "fedora")).
  vm_compute. reflexivity.
Defined.

Lemma prefix_agrees_scenario :
  let σ' := loaded "blackbox" false 0 fedora_files in
  (sandbox_mode (resolved σ') = "off"
   ∧ (command_prefix (resolved σ') = Some [Some "blackbox"]
      ∨ "blackbox" = "blackbox"
        ∧ command_prefix (resolved σ') = Some [Some "blackbox-terminal"]))
  ∨ (sandbox_mode (resolved σ') = "off"
     ∧ "off" ≠ "off"
     ∧ ∃ package,
         Some "com.raggesilver.BlackBox" = Some package
         ∧ command_prefix (resolved σ')
           = Some [Some "flatpak"; Some "run"; Some ("--" +:+ "off");
                   Some package]).
Proof.
  cbv zeta.
  apply (prefix_agrees_with_sandbox_mode literal_eval_model
           (example_settings "blackbox" false 0) fedora_files initial_state
           "off"
           (mkTerminal "Black Box" (Some ["--working-directory"]) None None
                       ["-c"] (Some "com.raggesilver.BlackBox")));
    vm_compute; reflexivity.
Defined.

(** * Further properties of the reader of distribution files *)

Lemma span_spec (p : ascii → bool) (s a b : string) :
  span p s = (a, b) →
  s = a +:+ b
  ∧ forall_chars p a = true
  ∧ match b with
    | String c _ => p c = false
    | EmptyString => True
    end.
Proof.
  revert a b. induction s as [|c s IH]; intros a b Hspan.
  - cbn in Hspan. by injection Hspan as <- <-.
  - cbn in Hspan. destruct (p c) eqn:Hc.
    + destruct (span p s) as [a' b'] eqn:Hrec.
      injection Hspan as <- <-.
      destruct (IH a' b' eq_refl) as (-> & Ha & Hb).
      split; [done|]. split; [|done]. cbn. by rewrite Hc, Ha.
    + injection Hspan as <- <-. split; [done|]. split; [done|]. exact Hc.
Qed.

Lemma span_app_stop (p : ascii → bool) (a : string) (c : ascii) (b : string) :
  forall_chars p a = true →
  p c = false →
  span p (a +:+ String c b) = (a, String c b).
Proof.
  intros Ha Hc. induction a as [|d a IH].
  - change (span p (String c b) = ("", String c b)).
    cbn [span]. by rewrite Hc.
  - cbn in Ha. apply andb_prop in Ha as [Hd Ha].
    change (span p (String d (a +:+ String c b)) = (String d a, String c b)).
    cbn [span]. by rewrite Hd, (IH Ha).
Qed.

(** X12: what the pattern of [read_os_release] accepts.  A line matches,
    with groups [name] and [val], exactly when it is [name], an equals
    sign and some rest, where [name] is an upper-case letter followed by
    one or more upper-case letters, digits or underscores, and [val] is the
    rest up to its first line feed.  A one-letter name does not match. *)
Theorem match_assignment_spec (line name val : string) :
  match_assignment line = Some (name, val)
  ↔ ∃ rest, line = name +:+ "=" +:+ rest
            ∧ is_name name = true
            ∧ val = dot_star rest.
Proof.
  split.
  - unfold match_assignment.
    destruct line as [|c rest]; [done|].
    destruct (is_upper c) eqn:Hc; [|done].
    destruct (span is_name_char rest) as [run rest'] eqn:Hspan.
    destruct run as [|d run]; [done|].
    destruct rest' as [|e val0]; [done|].
    destruct (Ascii.eqb e "=") eqn:He; [|done].
    apply Ascii.eqb_eq in He as ->.
    intros [= <- <-].
    destruct (span_spec _ _ _ _ Hspan) as (-> & Hrun & _).
    exists val0. split; [done|]. split; [|done].
    cbn [is_name]. by rewrite Hc, Hrun.
  - intros (rest & -> & Hname & ->).
    destruct name as [|c [|d run]]; [done..|].
    cbn [is_name] in Hname. apply andb_prop in Hname as [Hc Hrun].
    change (match_assignment (String c (String d run +:+ String "=" rest))
            = Some (String c (String d run), dot_star rest)).
    unfold match_assignment. rewrite Hc.
    by rewrite (span_app_stop is_name_char (String d run) "=" rest Hrun eq_refl).
Qed.

(** ** White space *)

Ltac split_bool H :=
  repeat match type of H with
         | _ && _ = true => let H' := fresh in apply andb_prop in H as [H' H];
                                               split_bool H'
         | Ascii.eqb _ _ = true => apply Ascii.eqb_eq in H as ->
         end.

(** A white space character starts with a byte that begins a character
    and goes on with bytes that continue one. *)
Lemma is_space_start (c : ascii) :
  is_space c = true → is_continuation c = false.
Proof.
  destruct c as [[] [] [] [] [] [] [] []]; vm_compute; intros Hc;
    first [reflexivity | discriminate Hc].
Qed.

Lemma is_space2_bytes (c d : ascii) :
  is_space2 c d = true → is_continuation c = false ∧ is_continuation d = true.
Proof.
  unfold is_space2. intros H. split_bool H.
  apply orb_prop in H as [H|H]; split_bool H; by vm_compute.
Qed.

Lemma in_range_continuation (e : ascii) :
  in_range 128 138 e = true → is_continuation e = true.
Proof.
  unfold is_continuation, in_range.
  rewrite !andb_true_iff, !Nat.leb_le. lia.
Qed.

Lemma is_space3_bytes (c d e : ascii) :
  is_space3 c d e = true →
  is_continuation c = false ∧ is_continuation d = true
  ∧ is_continuation e = true.
Proof.
  unfold is_space3. intros H.
  apply orb_prop in H as [H|H]; [apply orb_prop in H as [H|H];
                                 [apply orb_prop in H as [H|H]|]|];
    split_bool H; try by vm_compute.
  split; [by vm_compute|]. split; [by vm_compute|].
  apply orb_prop in H as [H|H]; [apply orb_prop in H as [H|H];
                                 [apply orb_prop in H as [H|H]|]|];
    split_bool H; try by vm_compute.
  by apply in_range_continuation.
Qed.

Lemma blank_start (c : ascii) (s : string) :
  blank (String c s) = true → is_continuation c = false.
Proof.
  cbn [blank]. destruct (is_space c) eqn:Hc.
  { intros _. by apply is_space_start. }
  destruct s as [|d s]; [done|].
  destruct (is_space2 c d) eqn:H2.
  { intros _. by apply is_space2_bytes in H2 as [? _]. }
  destruct s as [|e s]; [done|].
  intros [H3 _]%andb_prop. by apply is_space3_bytes in H3 as [? _].
Qed.

(** ASCII white space is white space. *)
Lemma blank_spaces (w : string) :
  forall_chars is_space w = true → blank w = true.
Proof.
  induction w as [|c w IH]; [done|].
  intros [Hc Hw]%andb_prop. cbn [blank]. rewrite Hc. by apply IH.
Qed.

(** White space after a string: the whole is white space exactly when the
    string is.  No character straddles the seam, because the white space
    starts with the first byte of a character. *)
Lemma blank_app (w : string) :
  blank w = true → ∀ a, blank (a +:+ w) = blank a.
Proof.
  intros Hw.
  assert (Hseam : ∀ c s, w = String c s → is_continuation c = false).
  { intros c s ->. by apply (blank_start c s). }
  assert (Hall : ∀ n a, String.length a < n → blank (a +:+ w) = blank a).
  { induction n as [|n IH]; intros a Hlen; [lia|].
    destruct a as [|c r]; [exact Hw|].
    change (String c r +:+ w) with (String c (r +:+ w)).
    cbn [String.length] in Hlen.
    cbn [blank]. destruct (is_space c); [apply IH; lia|].
    destruct r as [|d r].
    { change ("" +:+ w) with w. destruct w as [|d w']; [done|].
      specialize (Hseam d w' eq_refl). cbv beta iota.
      destruct (is_space2 c d) eqn:H2.
      { apply is_space2_bytes in H2 as [_ H2]. congruence. }
      destruct w' as [|e w'']; [done|].
      destruct (is_space3 c d e) eqn:H3; [|done].
      apply is_space3_bytes in H3 as (_ & H3 & _). congruence. }
    change (String d r +:+ w) with (String d (r +:+ w)).
    cbn [String.length] in Hlen. cbv beta iota.
    destruct (is_space2 c d); [apply IH; lia|].
    destruct r as [|e r].
    { change ("" +:+ w) with w. destruct w as [|e w'']; [done|].
      specialize (Hseam e w'' eq_refl). cbv beta iota.
      destruct (is_space3 c d e) eqn:H3; [|done].
      apply is_space3_bytes in H3 as (_ & _ & H3). congruence. }
    change (String e r +:+ w) with (String e (r +:+ w)).
    cbn [String.length] in Hlen. cbv beta iota.
    by rewrite IH by lia. }
  intros a. apply (Hall (S (String.length a))). lia.
Qed.

Lemma rstrip_app_blank (a w : string) :
  blank w = true → rstrip (a +:+ w) = rstrip a.
Proof.
  intros Hw. induction a as [|c a IH].
  - change (rstrip w = ""). destruct w as [|d w]; [done|].
    cbn [rstrip]. by rewrite Hw.
  - change (rstrip (String c a +:+ w) = rstrip (String c a)).
    change (String c a +:+ w) with (String c (a +:+ w)) at 1.
    cbn [rstrip].
    change (String c (a +:+ w)) with (String c a +:+ w).
    by rewrite (blank_app w Hw), IH.
Qed.

(** X13: line ends do not matter.  Iterating over a file gives each line
    with its line feed; appending a line feed, or any other run of white
    space, to every line changes neither what the reader yields nor the
    exception that ends it. *)
Theorem read_lines_trailing_whitespace
    (literal_eval : string → exn + pyval) (file_path : string) (n : nat)
    (lines : list string) (suffix : string) :
  blank suffix = true →
  read_lines literal_eval file_path n ((λ line, line +:+ suffix) <$> lines)
  = read_lines literal_eval file_path n lines.
Proof.
  intros Hsuffix. revert n.
  induction lines as [|line lines IH]; intros n; [done|].
  cbn [fmap list_fmap read_lines].
  rewrite (rstrip_app_blank line suffix Hsuffix).
  by rewrite !IH.
Qed.

(** A no-break space (U+00A0), a carriage return and a line feed after
    every line. *)
Lemma read_lines_trailing_whitespace_scenario :
  read_lines literal_eval_model "/etc/os-release" 1
    ((λ line, line +:+ String "194" (String "160" (String "013" (String "010" ""))))
       <$> ["NAME=Fedora"; ""; "ID=fedora"])
  = read_lines literal_eval_model "/etc/os-release" 1
      ["NAME=Fedora"; ""; "ID=fedora"].
Proof.
  apply (read_lines_trailing_whitespace literal_eval_model "/etc/os-release" 1
           ["NAME=Fedora"; ""; "ID=fedora"]
           (String "194" (String "160" (String "013" (String "010" ""))))).
  reflexivity.
Defined.

(** X14: blank lines and comments carry nothing.  Removing every line
    that is empty or a comment once stripped leaves what the reader yields
    unchanged, from whatever line number it counts, and it ends with an
    exception exactly when it did before. *)
Theorem read_lines_skips_ignored
    (literal_eval : string → exn + pyval) (file_path : string) (n m : nat)
    (lines : list string) :
  (read_lines literal_eval file_path m
     (filter (λ line, is_ignored line = false) lines)).1
  = (read_lines literal_eval file_path n lines).1
  ∧ ((read_lines literal_eval file_path m
        (filter (λ line, is_ignored line = false) lines)).2 = None
     ↔ (read_lines literal_eval file_path n lines).2 = None).
Proof.
  revert n m. induction lines as [|line lines IH]; intros n m; [done|].
  destruct (is_ignored line) eqn:Hign.
  - rewrite filter_cons_False by (by rewrite Hign).
    cbn [read_lines]. unfold is_ignored in Hign. rewrite Hign. apply IH.
  - rewrite filter_cons_True by done.
    cbn [read_lines]. unfold is_ignored in Hign. rewrite Hign.
    destruct (match_assignment (rstrip line)) as [[name val]|]; [|done].
    destruct (if startswith "034" val || startswith "039" val
              then literal_eval val else inr (VStr val)) as [e|v]; [done|].
    specialize (IH (S n) (S m)).
    destruct (read_lines literal_eval file_path (S m) _) as [items1 e1].
    destruct (read_lines literal_eval file_path (S n) lines) as [items2 e2].
    cbn in *. destruct IH as [-> IH]. done.
Qed.

Lemma read_lines_app
    (literal_eval : string → exn + pyval) (file_path : string) (n : nat)
    (good more : list string) (items : list (string * pyval)) :
  read_lines literal_eval file_path n good = (items, None) →
  read_lines literal_eval file_path n (good ++ more)
  = ((items ++ (read_lines literal_eval file_path (n + length good) more).1),
     (read_lines literal_eval file_path (n + length good) more).2).
Proof.
  revert n items. induction good as [|line good IH]; intros n items Hgood.
  - cbn in Hgood. injection Hgood as <-. cbn [app length].
    rewrite Nat.add_0_r. by destruct (read_lines _ _ _ more).
  - cbn [app length read_lines] in *.
    replace (n + S (length good)) with (S n + length good) by lia.
    destruct (bool_decide (rstrip line = "") || startswith "#" (rstrip line)).
    { by apply IH. }
    destruct (match_assignment (rstrip line)) as [[name val]|]; [|done].
    destruct (if startswith "034" val || startswith "039" val
              then literal_eval val else inr (VStr val)) as [e|v]; [done|].
    destruct (read_lines literal_eval file_path (S n) good) as [items' e']
      eqn:Hrec.
    injection Hgood as <- ->.
    by rewrite (IH (S n) items' Hrec).
Qed.

(** X15: one bad line spoils the file.  If iterating over
    [/etc/os-release] produces, after lines that are read without an
    exception, a line that is neither ignored nor an assignment, [distro_id]
    is [unknown], whatever the lines before it assigned (an [ID=] among
    them included), whatever follows it (bytes that do not decode
    included) and whatever the second file holds. *)
Theorem bad_line_gives_unknown
    (literal_eval : string → exn + pyval) (fs : filesystem)
    (good : list string) (bad : string) (rest : list string)
    (items : list (string * pyval)) :
  fs "/etc/os-release" = Text (good ++ bad :: rest)
  ∨ fs "/etc/os-release" = Undecodable (good ++ bad :: rest) →
  read_lines literal_eval "/etc/os-release" 1 good = (items, None) →
  is_ignored bad = false →
  match_assignment (rstrip bad) = None →
  distro_id_body literal_eval fs = Ret (VStr "unknown").
Proof.
  intros Hetc Hgood Hign Hbad.
  unfold distro_id_body, read_os_release, possible_os_release_paths.
  cbn [read_paths].
  destruct Hetc as [-> | ->];
    rewrite (read_lines_app literal_eval _ 1 good (bad :: rest) items Hgood);
    cbn [read_lines]; unfold is_ignored in Hign; rewrite Hign, Hbad;
    reflexivity.
Qed.

(** A lower-case key after the identifier. *)
Lemma bad_line_scenario :
  distro_id_body literal_eval_model
    (files [("/etc/os-release", Text ["ID=fedora"; "variant=workstation"]);
            ("/usr/lib/os-release", Text ["ID=fedora"])])
  = Ret (VStr "unknown").
Proof.
  apply (bad_line_gives_unknown literal_eval_model _
           ["ID=fedora"] "variant=workstation" [] [("ID", VStr "fedora")]);
    [left|..]; vm_compute; reflexivity.
Defined.

(** A line of white space only is ignored, whatever the white space: a
    no-break space or an ideographic space on a line of its own is not a
    bad line. *)
Lemma blank_line_is_ignored (line : string) :
  blank line = true → is_ignored line = true.
Proof.
  intros Hblank. unfold is_ignored.
  destruct line as [|c line]; [done|]. cbn [rstrip]. by rewrite Hblank.
Qed.

(** X21: bytes that do not decode.  If [/etc/os-release] is not UTF-8
    throughout and the lines that iterating over it produces before the
    decoder fails are read without an exception, [distro_id] raises
    [UnicodeDecodeError], which its [except OSError] does not catch,
    whatever those lines assigned and whatever the second file holds. *)
Theorem undecodable_file_raises
    (literal_eval : string → exn + pyval) (fs : filesystem)
    (lines : list string) (items : list (string * pyval)) :
  fs "/etc/os-release" = Undecodable lines →
  read_lines literal_eval "/etc/os-release" 1 lines = (items, None) →
  distro_id_body literal_eval fs = Raise UnicodeDecodeError.
Proof.
  intros Hetc Hlines.
  unfold distro_id_body, read_os_release, possible_os_release_paths.
  cbn [read_paths]. by rewrite Hetc, Hlines.
Qed.

(** The identifier was read before the decoder failed. *)
Lemma undecodable_file_scenario :
  distro_id_body literal_eval_model
    (files [("/etc/os-release", Undecodable ["ID=fedora"]);
            ("/usr/lib/os-release", Text ["ID=fedora"])])
  = Raise UnicodeDecodeError.
Proof.
  apply (undecodable_file_raises literal_eval_model _ ["ID=fedora"]
           [("ID", VStr "fedora")]);
    vm_compute; reflexivity.
Defined.

(** * Properties of the menu provider *)

(** [args[-1]] is the last argument, however many precede it. *)
Lemma py_getitem_last {A} (pre : list A) (x : A) :
  py_getitem (pre ++ [x]) (-1) = Some x.
Proof.
  unfold py_getitem. rewrite length_app. cbn [length].
  rewrite bool_decide_false by lia.
  rewrite bool_decide_true by lia.
  replace (Z.to_nat (-1 + Z.of_nat (length pre + 1))) with (length pre) by lia.
  apply lookup_top.
Qed.

Section menu_facts.

Variable gettext : string → string.
Variable format : string → list string → exn + string.
Variable dirs : directories.
Variable urlparse : string → exn + ParseResult.
Variable unquote : string → string.

(** X16: when the menu stays empty.  Whatever precedes the selection in
    the arguments (nothing for one host interface, the window for the
    other), [get_file_items] returns the empty list, without raising and
    without reading the translations, when the selection does not have
    exactly one file or when none of its files is a directory. *)
Theorem get_file_items_empty
    (pre : list hostarg) (files : list FileInfo) (σ : State) :
  length files ≠ 1 ∨ Forall (λ file_, is_directory file_ = false) files →
  get_file_items gettext format (pre ++ [Files files]) σ = (σ, Ret []).
Proof.
  intros Hsel. unfold get_file_items.
  rewrite py_getitem_last. cbn [from_option].
  rewrite bind_run, run_lift_inr. cbv beta iota.
  destruct (length files =? 1)%nat eqn:Hlen; [|done].
  apply Nat.eqb_eq in Hlen.
  destruct Hsel as [Hne | Hdir]; [done|].
  destruct files as [|file_ [|? ?]]; [done| |done].
  apply Forall_cons in Hdir as [Hdir _].
  cbn [negb]. change (py_getitem [file_] 0) with (Some file_).
  cbn [from_option]. rewrite bind_run, run_lift_inr. cbv beta iota.
  by rewrite Hdir.
Qed.


(** X18: the background menu always has its entry.  For a folder, with
    the two translated templates formatting to [label] and [tip],
    [get_background_items] returns exactly one entry, connected with the
    folder and changing nothing; it is the remote one exactly when the
    scheme of the folder is [ftp] or [sftp], and whether the folder is a
    directory is not looked at. *)
Theorem get_background_items_entry
    (pre : list hostarg) (file_ : FileInfo) (σ : State) (label tip : string) :
  let remote := bool_decide (get_uri_scheme file_ ∈ REMOTE_URI_SCHEME) in
  let terminal_name := name (terminal_data (globals σ)) in
  format (gettext (if remote then "Open Remote {} Here" else "Open {} Here"))
         [terminal_name] = inr label →
  format (gettext (if remote then "Open Remote {} In This Directory"
                   else "Open {} In This Directory"))
         [terminal_name] = inr tip →
  get_background_items gettext format (pre ++ [Folder file_]) σ
  = (σ, Ret [mkMenuItem (if remote then "OpenTerminal::open_bg_remote_item"
                         else "OpenTerminal::open_bg_file_item")
                        label tip file_]).
Proof.
  intros remote terminal_name Hlabel Htip. subst terminal_name.
  destruct σ as [g h c o sp]. cbn [globals] in *.
  unfold get_background_items. rewrite py_getitem_last. cbn [from_option].
  rewrite bind_run, run_lift_inr. cbv beta iota.
  rewrite bind_run, run_get_globals. cbv beta iota.
  fold remote. destruct remote;
    rewrite !bind_run, Hlabel, run_lift_inr; cbv beta iota;
    rewrite bind_run, Htip, run_lift_inr; cbv beta iota;
    rewrite run_mret; cbv beta iota; by rewrite run_mret.
Qed.

End menu_facts.

(** ** The menu provider, run *)

(** Nothing selected, under the host interface that passes the window. *)
Lemma get_file_items_empty_scenario :
  get_file_items (λ text, text) format_model [Window; Files []]
    (loaded "xterm" false 0 (files []))
  = (loaded "xterm" false 0 (files []), Ret []).
Proof.
  apply (get_file_items_empty (λ text, text) format_model [Window] []
           (loaded "xterm" false 0 (files []))).
  left. discriminate.
Defined.


(** The background of a local folder. *)
Lemma get_background_items_scenario :
  get_background_items (λ text, text) format_model
    [Window; Folder (mkFileInfo true "file" "file:///home/alice" "alice")]
    (loaded "tilix" false 0 (files []))
  = (loaded "tilix" false 0 (files []),
     Ret [mkMenuItem "OpenTerminal::open_bg_file_item" "Open Tilix Here"
            "Open Tilix In This Directory"
            (mkFileInfo true "file" "file:///home/alice" "alice")]).
Proof.
  exact (get_background_items_entry (λ text, text) format_model [Window]
           (mkFileInfo true "file" "file:///home/alice" "alice")
           (loaded "tilix" false 0 (files []))
           "Open Tilix Here" "Open Tilix In This Directory"
           eq_refl eq_refl).
Defined.

(** * The new-tab flag across resolutions *)

(** X19: the new-tab flag is set, never cleared.  After any call of
    [set_terminal_args], returning or raising, the flag is true exactly
    when it was true before or when, for a sandbox value that
    [FLATPAK_PARMS] has and an identifier of the registry, the setting
    asks for a tab and the terminal has tab arguments. *)
Theorem new_tab_flag_after_resolution
    (literal_eval : string → exn + pyval) (gs : Settings) (fs : filesystem)
    (σ : State) :
  new_tab (globals (run (set_terminal_args literal_eval gs fs) σ))
  = new_tab (globals σ)
    || match py_getitem FLATPAK_PARMS (get_enum gs GSETTINGS_FLATPAK),
             TERMINALS !! get_string gs GSETTINGS_TERMINAL with
       | Some _, Some td =>
           get_boolean gs GSETTINGS_NEW_TAB && truthy (new_tab_arguments td)
       | _, _ => false
       end.
Proof.
  destruct σ as [g h c o sp]. unfold run.
  destruct (py_getitem FLATPAK_PARMS (get_enum gs GSETTINGS_FLATPAK))
    as [mode|] eqn:Hmode.
  2:{ rewrite set_terminal_args_bad_enum by done. cbn. by rewrite orb_false_r. }
  destruct (TERMINALS !! get_string gs GSETTINGS_TERMINAL) as [td|] eqn:Htd.
  2:{ rewrite (set_terminal_args_unknown literal_eval gs fs g h c o sp mode)
        by done. cbn. by rewrite orb_false_r. }
  rewrite (set_terminal_args_known literal_eval gs fs g h c o sp mode td Hmode Htd).
  cbv zeta.
  assert (Htab : new_tab (chosen gs td mode g)
                 = new_tab g
                   || get_boolean gs GSETTINGS_NEW_TAB
                      && truthy (new_tab_arguments td)).
  { unfold chosen. cbn [new_tab].
    by destruct (get_boolean gs GSETTINGS_NEW_TAB),
                (truthy (new_tab_arguments td)), (new_tab g). }
  destruct (negb (bool_decide (mode = FLATPAK_PARMS_0))
            && bool_decide (flatpak_package td ≠ None)); [exact Htab|].
  destruct (bool_decide (get_string gs GSETTINGS_TERMINAL = "blackbox"));
    [|exact Htab].
  destruct (cached c (distro_id_body literal_eval fs)) as [memo [d|e|]];
    exact Htab.
Qed.
